(** * SNOWAppInterrogator.py: a shallow embedding and its checked properties

    The script talks to a ServiceNow instance through the [requests]
    library, writes to a log file, prints to standard output and leaves
    through [exit()].  The embedding keeps those effects visible:

    - a function of the script is a value of [M A]: the events it performs,
      in order, and the way it ends (a returned value, [exit()], or an
      exception that no clause of the function catches);
    - the network is a parameter [transport], mapping the request that was
      sent to what [requests.get] / [requests.post] does with it;
    - values decoded from JSON are [PyVal]s, dictionaries keeping their
      insertion order as Python's do;
    - [xml.etree.ElementTree] elements live in a store and are named by
      references, since [BuildXML] fills in an element after it has been
      appended to its parent. *)

From Stdlib Require Import Ascii String.
From stdpp Require Import gmap strings list pretty.

Set Warnings "-register-all".
Open Scope string_scope.
Open Scope list_scope.
Open Scope Z_scope.

(** ** Python values *)

(** What [json.loads] can produce, numbers restricted to integers.  A [PDict]
    lists its items in insertion order; item access takes the first item
    with the key. *)
Inductive PyVal :=
| PNone
| PBool (b : bool)
| PInt (z : Z)
| PStr (s : string)
| PList (items : list PyVal)
| PDict (items : list (string * PyVal)).

(** An argument that may have been left at [None] ([argparse] does so for
    an option that is not on the command line). *)
Abbreviation PyOptStr := (option string).

(** ['%s' % x] for [x] a [str] or [None]. *)
Definition fmt_s (x : PyOptStr) : string :=
  match x with
  | Some s => s
  | None => "None"
  end.

Definition dict_get (k : string) (items : list (string * PyVal)) : option PyVal :=
  snd <$> List.find (fun kv => String.eqb (fst kv) k) items.

(** Python's [==] on decoded values: [bool] is a subtype of [int]
    ([True == 1]), sequences compare item by item, dictionaries compare as
    maps, whatever the order of their items. *)
Fixpoint py_eq (a b : PyVal) {struct a} : bool :=
  match a, b with
  | PNone, PNone => true
  | PBool x, PBool y => Bool.eqb x y
  | PBool x, PInt y => Z.b2z x =? y
  | PInt x, PBool y => x =? Z.b2z y
  | PInt x, PInt y => x =? y
  | PStr x, PStr y => String.eqb x y
  | PList xs, PList ys =>
      (fix items_eq (xs ys : list PyVal) {struct xs} : bool :=
         match xs, ys with
         | [], [] => true
         | x :: xs', y :: ys' => py_eq x y && items_eq xs' ys'
         | _, _ => false
         end) xs ys
  | PDict xs, PDict ys =>
      (length xs =? length ys)%nat &&
      (fix values_eq (xs : list (string * PyVal)) {struct xs} : bool :=
         match xs with
         | [] => true
         | (k, v) :: xs' =>
             match dict_get k ys with
             | Some w => py_eq v w && values_eq xs'
             | None => false
             end
         end) xs
  | _, _ => false
  end.

(** [a != b] *)
Definition py_ne (a b : PyVal) : bool := negb (py_eq a b).

(** ** Exceptions and outcomes *)

(** The classes of [requests.exceptions] that the script names. *)
Inductive ReqClass := HTTPError | ConnectionError | RequestException.

Global Instance ReqClass_eq_dec : EqDecision ReqClass.
Proof. solve_decision. Defined.

(** An exception object coming out of [requests]: the classes it is an
    instance of, and its [str()]. *)
Record ReqExn := mkReqExn {
  exn_classes : list ReqClass;
  exn_str : string
}.

Definition isinstance (e : ReqExn) (c : ReqClass) : bool :=
  bool_decide (c ∈ exn_classes e).

(** Exceptions that leave a function of the script uncaught. *)
Inductive PyError :=
| JSONDecodeError
| KeyError (key : string)
| TypeError
| UnboundLocalError (name : string)
| RecursionError
| Propagated (e : ReqExn).

(** How a call ends.  [Exited] is [exit()]. *)
Inductive Outcome (A : Type) :=
| Returned (a : A)
| Exited
| Raised (e : PyError).
Arguments Returned {A} a.
Arguments Exited {A}.
Arguments Raised {A} e.

Definition obind {A B} (m : Outcome A) (f : A -> Outcome B) : Outcome B :=
  match m with
  | Returned a => f a
  | Exited => Exited
  | Raised e => Raised e
  end.

(** [v[k]] for a [str] key [k]. *)
Definition py_getitem (v : PyVal) (k : string) : Outcome PyVal :=
  match v with
  | PDict items =>
      match dict_get k items with
      | Some w => Returned w
      | None => Raised (KeyError k)
      end
  | _ => Raised TypeError
  end.

Fixpoint chars (s : string) : list PyVal :=
  match s with
  | EmptyString => []
  | String c s' => PStr (String c EmptyString) :: chars s'
  end.

(** The items that [for x in v] goes through. *)
Definition py_iter (v : PyVal) : Outcome (list PyVal) :=
  match v with
  | PList items => Returned items
  | PDict items => Returned (PStr <$> (fst <$> items))
  | PStr s => Returned (chars s)
  | _ => Raised TypeError
  end.

(** ** identifyCustomBusinessRules *)

(** The body of the loop, from the rule at hand and the list built so far
    to the list after the iteration. *)
Definition identifyCustomBusinessRules_step
    (customBusRules : list PyVal) (rule : PyVal) : Outcome (list PyVal) :=
  obind (py_getitem rule "sys_created_by") (fun created =>
  obind (py_getitem rule "sys_updated_by") (fun updated =>
  if py_ne created updated
  then Returned (customBusRules ++ [rule])
  else Returned customBusRules)).

Fixpoint identifyCustomBusinessRules_loop
    (customBusRules : list PyVal) (rules : list PyVal) : Outcome (list PyVal) :=
  match rules with
  | [] => Returned customBusRules
  | rule :: rest =>
      obind (identifyCustomBusinessRules_step customBusRules rule)
            (fun acc => identifyCustomBusinessRules_loop acc rest)
  end.

Definition identifyCustomBusinessRules (busRules : PyVal) : Outcome (list PyVal) :=
  let customBusRules := [] in
  obind (py_getitem busRules "result") (fun result =>
  obind (py_iter result) (fun rules =>
  identifyCustomBusinessRules_loop customBusRules rules)).

(** ** Effects: the log, standard output, the network *)

Inductive Method := GET | POST.

(** The arguments of [requests.get] / [requests.post]. *)
Record Request := mkRequest {
  req_method : Method;
  req_url : string;
  req_auth : PyOptStr * PyOptStr;
  req_headers : list (string * string);
  req_params : string;
  req_data : option string
}.

(** [requests.structures.CaseInsensitiveDict], the type of
    [response.headers]: the store is keyed by the lower-cased name and
    keeps the name as it was set next to the value. *)
Module CaseInsensitiveDict.

Definition ascii_lower (c : Ascii.ascii) : Ascii.ascii :=
  let n := Ascii.N_of_ascii c in
  if ((65 <=? n) && (n <=? 90))%N then Ascii.ascii_of_N (n + 32) else c.

Fixpoint lower (s : string) : string :=
  match s with
  | EmptyString => EmptyString
  | String c s' => String (ascii_lower c) (lower s')
  end.

Abbreviation t := (gmap string (string * string)).

Definition setitem (d : t) (key value : string) : t :=
  <[lower key := (key, value)]> d.

(** [d[key]]; a missing key raises [KeyError] on the lower-cased name. *)
Definition getitem (d : t) (key : string) : Outcome string :=
  match d !! lower key with
  | Some kv => Returned (snd kv)
  | None => Raised (KeyError (lower key))
  end.

Definition of_list (items : list (string * string)) : t :=
  foldl (fun d kv => setitem d (fst kv) (snd kv)) ∅ items.

End CaseInsensitiveDict.

(** What the script reads of a [requests.Response].  [json] is the result
    of [response.json()]: the decoded body, or [None] when the body does
    not decode and the call raises [JSONDecodeError]. *)
Module Response.
Record t := mk {
  status_code : Z;
  reason : string;
  url : string;
  headers : CaseInsensitiveDict.t;
  json : option PyVal
}.
End Response.

(** [requests.get] / [requests.post] either raise or hand back a response. *)
Inductive TransportResult :=
| Raises (e : ReqExn)
| Responds (response : Response.t).

(** [Response.raise_for_status] of [requests]: an [HTTPError] for the
    statuses from 400 to 599, nothing for the others. *)
Definition raise_for_status (response : Response.t) : option ReqExn :=
  let status_code := Response.status_code response in
  if (400 <=? status_code) && (status_code <? 500) then
    Some (mkReqExn [HTTPError; RequestException]
            (pretty status_code +:+ " Client Error: " +:+ Response.reason response
             +:+ " for url: " +:+ Response.url response))
  else if (500 <=? status_code) && (status_code <? 600) then
    Some (mkReqExn [HTTPError; RequestException]
            (pretty status_code +:+ " Server Error: " +:+ Response.reason response
             +:+ " for url: " +:+ Response.url response))
  else None.

Inductive Event :=
| LogInfo (msg : string)
| LogError (msg : string)
| Print (msg : string)
| Sent (req : Request)
| JsonDecode.

(** A computation of the script: the events it performed and how it ended. *)
Definition M (A : Type) : Type := list Event * Outcome A.

Global Instance M_ret : MRet M := fun A a => ([], Returned a).

Global Instance M_bind : MBind M := fun A B f m =>
  match m with
  | (t, Returned a) => (t ++ fst (f a), snd (f a))
  | (t, Exited) => (t, Exited)
  | (t, Raised e) => (t, Raised e)
  end.

Definition emit (ev : Event) : M unit := ([ev], Returned tt).
Definition log_info (msg : string) : M unit := emit (LogInfo msg).
Definition log_error (msg : string) : M unit := emit (LogError msg).
Definition print (msg : string) : M unit := emit (Print msg).
Definition exit {A} : M A := ([], Exited).
Definition raise {A} (e : PyError) : M A := ([], Raised e).
Definition lift {A} (o : Outcome A) : M A := ([], o).

(** Reading a local variable that an assignment may not have reached. *)
Definition local {A} (name : string) (v : option A) : M A :=
  match v with
  | Some a => mret a
  | None => raise (UnboundLocalError name)
  end.

(** [response.json()] *)
Definition response_json (response : Response.t) : M PyVal :=
  emit JsonDecode;;
  match Response.json response with
  | Some v => mret v
  | None => raise JSONDecodeError
  end.

Definition trace {A} (m : M A) : list Event := fst m.
Definition outcome {A} (m : M A) : Outcome A := snd m.

Definition sent (t : list Event) : list Request :=
  omap (fun ev => match ev with Sent req => Some req | _ => None end) t.

Definition printed (t : list Event) : list string :=
  omap (fun ev => match ev with Print msg => Some msg | _ => None end) t.

Definition logged_errors (t : list Event) : list string :=
  omap (fun ev => match ev with LogError msg => Some msg | _ => None end) t.

Definition json_decodes (t : list Event) : list unit :=
  omap (fun ev => match ev with JsonDecode => Some tt | _ => None end) t.

(** ** xml.etree.ElementTree *)

(** Elements are mutable and shared: [root.append(entry)] stores a
    reference, and what is added to [entry] afterwards is seen from
    [root].  The store is the list of the elements allocated so far, and
    a reference is a position in it.  Elements carry a tag, a text and
    children; the script sets no attribute and no tail. *)
Module ET.

Record Node := mkNode {
  tag : string;
  text : option string;
  children : list nat
}.

Abbreviation Store := (list Node).

(** [ET.Element(tag)] *)
Definition Element (st : Store) (tag : string) : Store * nat :=
  (st ++ [mkNode tag None []], length st).

(** [parent.append(child)] *)
Definition append (st : Store) (parent child : nat) : Store :=
  alter (fun n => mkNode (ET.tag n) (ET.text n) (ET.children n ++ [child])) parent st.

(** [ET.SubElement(parent, tag)] *)
Definition SubElement (st : Store) (parent : nat) (tag : string) : Store * nat :=
  let '(st, element) := Element st tag in
  (append st parent element, element).

(** [element.text = s] *)
Definition set_text (st : Store) (element : nat) (s : string) : Store :=
  alter (fun n => mkNode (ET.tag n) (Some s) (ET.children n)) element st.

(** [_escape_cdata] *)
Fixpoint escape_cdata (s : string) : string :=
  match s with
  | EmptyString => EmptyString
  | String c s' =>
      (if Ascii.eqb c "&"%char then "&amp;"
       else if Ascii.eqb c "<"%char then "&lt;"
       else if Ascii.eqb c ">"%char then "&gt;"
       else String c EmptyString) +:+ escape_cdata s'
  end.

Definition truthy (text : option string) : bool :=
  match text with
  | Some (String _ _) => true
  | _ => false
  end.

(** [_serialize_xml] with [short_empty_elements=True].  The recursion of
    the original follows the children; here it is bounded by [fuel], and
    [None] stands for the recursion not coming to an end. *)
Fixpoint serialize_xml (fuel : nat) (st : Store) (elem : nat) : option string :=
  match fuel with
  | O => None
  | S fuel =>
      n ← st !! elem;
      if truthy (text n) || negb (bool_decide (children n = [])) then
        inner ← mapM (serialize_xml fuel st) (children n);
        Some ("<" +:+ tag n +:+ ">"
              +:+ (if truthy (text n) then escape_cdata (default "" (text n)) else "")
              +:+ foldr String.app "" inner
              +:+ "</" +:+ tag n +:+ ">")
      else
        Some ("<" +:+ tag n +:+ " />")
  end.

(** [ET.tostring(element)]: the ASCII serialization, without an XML
    declaration.  A chain of distinct elements is no longer than the
    store, so the fuel below is only used up on a cyclic structure, where
    Python raises [RecursionError]. *)
Definition tostring (st : Store) (element : nat) : option string :=
  serialize_xml (S (length st)) st element.

End ET.

(** ** The script *)

(** The namespace that [parseArguments] returns. *)
Module Args.
Record t := mk {
  instance : PyOptStr;
  username : PyOptStr;
  password : PyOptStr;
  application : PyOptStr
}.
End Args.

Section Script.

(** [str()] of a decoded value, as ['%s' % value] renders it. *)
Variable py_str : PyVal -> string.

(** What the network does with a request. *)
Variable transport : Request -> TransportResult.

(** The elements that are alive when [BuildXML] is called. *)
Variable heap : ET.Store.

(** The global [args]. *)
Variable args : Args.t.

(** [requests.get(url, auth=..., headers=..., params=...)] *)
Definition requests_get (url : string) (auth : PyOptStr * PyOptStr)
    (headers : list (string * string)) (params : string) : M TransportResult :=
  let req := mkRequest GET url auth headers params None in
  emit (Sent req);; mret (transport req).

(** [requests.post(url, auth=..., headers=..., params=..., data=...)] *)
Definition requests_post (url : string) (auth : PyOptStr * PyOptStr)
    (headers : list (string * string)) (params : string) (data : string)
    : M TransportResult :=
  let req := mkRequest POST url auth headers params (Some data) in
  emit (Sent req);; mret (transport req).

(** The [except] clauses of [getAllTableRecords], tried in order on the
    exception [e] that the [try] block raised; [response] is the local
    variable, unbound when [requests.get] itself raised. *)
Definition getAllTableRecords_except
    (response : option Response.t) (e : ReqExn) : M PyVal :=
  if isinstance e HTTPError then
    response ← local "response" response;
    body ← response_json response;
    log_error (exn_str e +:+ ":" +:+ py_str body);;
    body ← response_json response;
    print (exn_str e +:+ " -- " +:+ py_str body);;
    exit
  else if isinstance e ConnectionError then
    log_error (exn_str e);;
    print ("There seems to be something wrong with your internet connection. "
           +:+ "Double check your connection and script parameters. -- "
           +:+ exn_str e);;
    exit
  else if isinstance e RequestException then
    log_error (exn_str e);;
    print ("There is an issue with your connection to ServiceNow. -- " +:+ exn_str e);;
    exit
  else raise (Propagated e).

(** The [else] clause of [getAllTableRecords]. *)
Definition getAllTableRecords_else (response : Response.t) : M PyVal :=
  emit JsonDecode;;
  match Response.json response with
  | None =>
      (* except json.decoder.JSONDecodeError *)
      log_error "A problem occured decoding the response from ServiceNow.";;
      print "A problem occured decoding the response from ServiceNow.";;
      content_type ← lift (CaseInsensitiveDict.getitem (Response.headers response) "Content-Type");
      (if String.eqb content_type "text/html" then
         log_error ("A json object was not returned. "
                    +:+ "Verify that your instance is active and try again.");;
         print ("A json object was not returned. Verify that your instance is"
                +:+ " active and try again.")
       else mret tt);;
      exit
  | Some data =>
      log_info ("Successfully retrieved all " +:+ fmt_s (Args.application args) +:+ " records ");;
      mret data
  end.

Definition getAllTableRecords (application : PyOptStr) (query : string) : M PyVal :=
  let url := fmt_s (Args.instance args) +:+ "/api/now/table/" +:+ fmt_s application in
  let headers := [("Accept", "application/json")] in
  log_info ("Retrieving all " +:+ fmt_s (Args.application args) +:+ " records...");;
  result ← requests_get url (Args.username args, Args.password args) headers query;
  match result with
  | Raises e => getAllTableRecords_except None e
  | Responds response =>
      match raise_for_status response with
      | Some eh => getAllTableRecords_except (Some response) eh
      | None => getAllTableRecords_else response
      end
  end.

(** [getBusinessRules] *)
Definition getBusinessRules (application : PyOptStr) : M PyVal :=
  let BUSINESS_RULE_TABLE_NAME := "sys_script" in
  let query := "sysparm_query=collection=" +:+ fmt_s application in
  data ← getAllTableRecords (Some BUSINESS_RULE_TABLE_NAME) query;
  mret data.

(** [BuildXML]: the five elements are allocated after those of [heap];
    only the serialization is returned, the elements are not reachable
    once the function has returned. *)
Definition BuildXML : M string :=
  let st := heap in
  let '(st, root) := ET.Element st "request" in
  let '(st, entry) := ET.Element st "entry" in
  let st := ET.append st root entry in
  let '(st, shortDescription) := ET.SubElement st entry "short_description" in
  let st := ET.set_text st shortDescription "The sky is falling!" in
  let '(st, urgency) := ET.SubElement st entry "urgency" in
  let st := ET.set_text st urgency "2" in
  let '(st, impact) := ET.SubElement st entry "impact" in
  let st := ET.set_text st impact "2" in
  match ET.tostring st root with
  | Some bytes => mret bytes
  | None => raise RecursionError
  end.

(** The [except] clauses of [createRecord]. *)
Definition createRecord_except
    (response : option Response.t) (e : ReqExn) : M PyVal :=
  if isinstance e HTTPError then
    response ← local "response" response;
    body ← response_json response;
    log_error (exn_str e +:+ ":" +:+ py_str body);;
    body ← response_json response;
    print (exn_str e +:+ " -- " +:+ py_str body);;
    exit
  else if isinstance e ConnectionError then
    log_error (exn_str e);;
    (* the literal is continued on the next source line with a backslash:
       the indentation of that line is part of the message *)
    print ("There seems to be something wrong with your internet connection. "
           +:+ "        Double check your connection and script parameters. -- "
           +:+ exn_str e);;
    exit
  else if isinstance e RequestException then
    log_error (exn_str e);;
    print ("There is an issue with your connection to ServiceNow. -- " +:+ exn_str e);;
    exit
  else raise (Propagated e).

(** The [else] clause of [createRecord]. *)
Definition createRecord_else (response : Response.t) : M PyVal :=
  emit JsonDecode;;
  match Response.json response with
  | None =>
      (* except json.decoder.JSONDecodeError *)
      log_error "A problem occured decoding the response from ServiceNow.";;
      print "A problem occured decoding the response from ServiceNow.";;
      content_type ← lift (CaseInsensitiveDict.getitem (Response.headers response) "Content-Type");
      (if String.eqb content_type "text/html" then
         log_error ("A json object was not returned. "
                    +:+ "Verify that your instance is active and try again.");;
         print ("A json object was not returned. Verify that your instance is"
                +:+ " active and try again.")
       else mret tt);;
      exit
  | Some data =>
      log_info ("Successfully retrieved all " +:+ fmt_s (Args.application args) +:+ " records ");;
      mret data
  end.

Definition createRecord (application : PyOptStr) (query : string) : M PyVal :=
  let url := fmt_s (Args.instance args) +:+ "/api/now/table/" +:+ fmt_s application in
  let headers := [("Content-Type", "application/xml"); ("Accept", "application/json")] in
  data ← BuildXML;
  log_info ("Creating " +:+ fmt_s (Args.application args) +:+ " record...");;
  result ← requests_post url (Args.username args, Args.password args) headers query data;
  match result with
  | Raises e => createRecord_except None e
  | Responds response =>
      match raise_for_status response with
      | Some eh => createRecord_except (Some response) eh
      | None => createRecord_else response
      end
  end.

(** [PullClassSchema]: the [except] clauses. *)
Definition PullClassSchema_except
    (response : option Response.t) (e : ReqExn) : M PyVal :=
  if isinstance e HTTPError then
    response ← local "response" response;
    body ← response_json response;
    log_error (exn_str e +:+ ":" +:+ py_str body);;
    body ← response_json response;
    print (exn_str e +:+ " -- " +:+ py_str body);;
    exit
  else if isinstance e ConnectionError then
    log_error (exn_str e);;
    print ("There seems to be something wrong with your internet connection. "
           +:+ "        Double check your connection and script parameters. -- "
           +:+ exn_str e);;
    exit
  else if isinstance e RequestException then
    log_error (exn_str e);;
    print ("There is an issue with your connection to ServiceNow. -- " +:+ exn_str e);;
    exit
  else raise (Propagated e).

(** [PullClassSchema]: the [else] clause. *)
Definition PullClassSchema_else (response : Response.t) : M PyVal :=
  emit JsonDecode;;
  match Response.json response with
  | None =>
      (* except json.decoder.JSONDecodeError *)
      log_error "A problem occured decoding the response from ServiceNow.";;
      print "A problem occured decoding the response from ServiceNow.";;
      content_type ← lift (CaseInsensitiveDict.getitem (Response.headers response) "Content-Type");
      (if String.eqb content_type "text/html" then
         log_error ("A json object was not returned. "
                    +:+ "Verify that your instance is active and try again.");;
         print ("A json object was not returned. Verify that your instance is"
                +:+ " active and try again.")
       else mret tt);;
      exit
  | Some data =>
      log_info ("Successfully retrieved all " +:+ fmt_s (Args.application args) +:+ " records ");;
      mret data
  end.

Definition PullClassSchema : M PyVal :=
  let dictUrl := fmt_s (Args.instance args) +:+ "/api/now/table/sys_dictionary" in
  let query := "sysparm_query=name=" +:+ fmt_s (Args.application args) +:+ "^ORname=task" in
  let headers := [("Accept", "application/json")] in
  log_info ("Retreiving schema for " +:+ fmt_s (Args.application args) +:+ " table...");;
  result ← requests_get dictUrl (Args.username args, Args.password args) headers query;
  match result with
  | Raises e => PullClassSchema_except None e
  | Responds response =>
      match raise_for_status response with
      | Some eh => PullClassSchema_except (Some response) eh
      | None => PullClassSchema_else response
      end
  end.

(** [classFactory], up to the call of [type]: the loop that fills
    [classAttributes] from the rows of the schema.  The dictionary is keyed
    by decoded values; a key has to be hashable, and two keys are the same
    when Python's [==] says so. *)
Definition hashable (k : PyVal) : bool :=
  match k with
  | PList _ | PDict _ => false
  | _ => true
  end.

Fixpoint attrs_setitem (d : list (PyVal * PyVal)) (k v : PyVal) : list (PyVal * PyVal) :=
  match d with
  | [] => [(k, v)]
  | (k', v') :: d' =>
      if py_eq k' k then (k', v) :: d' else (k', v') :: attrs_setitem d' k v
  end.

Definition attrs_get (d : list (PyVal * PyVal)) (k : PyVal) : option PyVal :=
  snd <$> List.find (fun kv => py_eq (fst kv) k) d.

Definition classFactory_step (classAttributes : list (PyVal * PyVal)) (attr : PyVal)
    : M (list (PyVal * PyVal)) :=
  (* classAttributes[attr["element"]] = attr['internal_type'] *)
  internal_type ← lift (py_getitem attr "internal_type");
  element ← lift (py_getitem attr "element");
  (if hashable element then mret tt else raise TypeError);;
  let classAttributes := attrs_setitem classAttributes element internal_type in
  (* log.info('%s: %s'%(attr['element'], attr['internal_type']['value'])) *)
  element ← lift (py_getitem attr "element");
  internal_type ← lift (py_getitem attr "internal_type");
  value ← lift (py_getitem internal_type "value");
  log_info (py_str element +:+ ": " +:+ py_str value);;
  mret classAttributes.

Fixpoint classFactory_loop (classAttributes : list (PyVal * PyVal)) (rows : list PyVal)
    : M (list (PyVal * PyVal)) :=
  match rows with
  | [] => mret classAttributes
  | attr :: rest =>
      classAttributes ← classFactory_step classAttributes attr;
      classFactory_loop classAttributes rest
  end.

Definition classFactory_attributes : M (list (PyVal * PyVal)) :=
  let classAttributes := [] in
  schema ← PullClassSchema;
  result ← lift (py_getitem schema "result");
  rows ← lift (py_iter result);
  classFactory_loop classAttributes rows.

(** [main], demo 1: the records of the application table, printed with
    their rank. *)
Fixpoint main_demo1_loop (inc : Z) (records : list PyVal) : M unit :=
  match records with
  | [] => mret tt
  | record :: rest =>
      number ← lift (py_getitem record "number");
      description ← lift (py_getitem record "description");
      print (pretty inc +:+ ". " +:+ py_str number +:+ " - " +:+ py_str description);;
      main_demo1_loop (inc + 1) rest
  end.

Definition main_demo1 : M unit :=
  records ← getAllTableRecords (Args.application args) "";
  let inc := 1 in
  result ← lift (py_getitem records "result");
  items ← lift (py_iter result);
  main_demo1_loop inc items.

(** [main], demo 2: the business rules whose creator is not their last
    editor, logged with their rank. *)
Fixpoint main_demo2_loop (inc : Z) (custBusRules : list PyVal) : M unit :=
  match custBusRules with
  | [] => mret tt
  | rule :: rest =>
      sys_name ← lift (py_getitem rule "sys_name");
      log_info (pretty inc +:+ ". " +:+ py_str sys_name);;
      main_demo2_loop (inc + 1) rest
  end.

Definition main_demo2 : M unit :=
  busRules ← getBusinessRules (Args.application args);
  custBusRules ← lift (identifyCustomBusinessRules busRules);
  let inc := 1 in
  main_demo2_loop inc custBusRules.

(** [main], from its first line to the end of demo 2. *)
Definition main_demos : M unit :=
  log_info "Beginning Execution";;
  main_demo1;;
  main_demo2.

End Script.

(** ** Observations and sample data *)

(** [sub] occurs in [s]. *)
Definition contains (s sub : string) : Prop :=
  exists pre post, s = pre +:+ sub +:+ post.

(** A record mapping that has both audit keys. *)
Definition has_audit_keys (rule : PyVal) : Prop :=
  exists fields created updated,
    rule = PDict fields /\
    dict_get "sys_created_by" fields = Some created /\
    dict_get "sys_updated_by" fields = Some updated.

(** The creator of the rule is not its last editor, by Python's [!=]. *)
Definition creator_differs (rule : PyVal) : bool :=
  match py_getitem rule "sys_created_by", py_getitem rule "sys_updated_by" with
  | Returned created, Returned updated => py_ne created updated
  | _, _ => false
  end.

(** The network gave [result] to every request that the call [m] sent. *)
Definition answered {A} (transport : Request -> TransportResult) (m : M A)
    (result : TransportResult) : Prop :=
  forall req, req ∈ sent (trace m) -> transport req = result.

(** The value of a response header, whatever the case of its name. *)
Definition header_value (response : Response.t) (name : string) : option string :=
  snd <$> Response.headers response !! CaseInsensitiveDict.lower name.

(** The call [m] logs a line, sends one request and goes on as [k]. *)
Definition continues_as {A} (m k : M A) : Prop :=
  exists info req, m = (LogInfo info :: Sent req :: trace k, outcome k).

(** The call does not come back to its caller: it ends in [exit()] or in
    an exception that it does not catch. *)
Definition terminated {A} (o : Outcome A) : Prop :=
  forall a, o <> Returned a.

Definition decode_failure_message : string :=
  "A problem occured decoding the response from ServiceNow.".

Definition instance_active_hint : string :=
  "A json object was not returned. Verify that your instance is active and try again.".

Definition connection_message : string :=
  "There seems to be something wrong with your internet connection. Double check your connection and script parameters. -- ".

(** The same message as [createRecord] prints it. *)
Definition create_connection_message : string :=
  "There seems to be something wrong with your internet connection.         Double check your connection and script parameters. -- ".

Definition request_message : string :=
  "There is an issue with your connection to ServiceNow. -- ".

Definition BuildXML_bytes : string :=
  "<request><entry><short_description>The sky is falling!</short_description><urgency>2</urgency><impact>2</impact></entry></request>".

(** The create operation as the specification words it:
    [create(connectionParams, resourceName, filter, body)] posts the body
    that the caller hands over. *)
Definition spec_create_request (args : Args.t) (resourceName : PyOptStr)
    (filter body : string) : Request :=
  mkRequest POST
    (fmt_s (Args.instance args) +:+ "/api/now/table/" +:+ fmt_s resourceName)
    (Args.username args, Args.password args)
    [("Content-Type", "application/xml"); ("Accept", "application/json")]
    filter (Some body).

(** Sample calls, after the scenarios of the specification. *)
Module Scenario.

(** A rendering of decoded values in the manner of Python's [repr],
    adequate for the sample values below (plain ASCII strings without
    quotes or escapes). *)
Fixpoint repr (v : PyVal) : string :=
  match v with
  | PNone => "None"
  | PBool true => "True"
  | PBool false => "False"
  | PInt z => pretty z
  | PStr s => "'" +:+ s +:+ "'"
  | PList items =>
      "[" +:+ (fix go (items : list PyVal) : string :=
                 match items with
                 | [] => ""
                 | [x] => repr x
                 | x :: rest => repr x +:+ ", " +:+ go rest
                 end) items +:+ "]"
  | PDict items =>
      "{" +:+ (fix go (items : list (string * PyVal)) : string :=
                 match items with
                 | [] => ""
                 | [(k, x)] => "'" +:+ k +:+ "': " +:+ repr x
                 | (k, x) :: rest => "'" +:+ k +:+ "': " +:+ repr x +:+ ", " +:+ go rest
                 end) items +:+ "}"
  end.

Definition py_str (v : PyVal) : string :=
  match v with
  | PStr s => s
  | _ => repr v
  end.

Definition args : Args.t :=
  Args.mk (Some "https://dev00000.service-now.com") (Some "admin") (Some "secret")
          (Some "incident").

Definition json_headers : CaseInsensitiveDict.t :=
  CaseInsensitiveDict.of_list [("Content-Type", "application/json;charset=UTF-8")].

Definition html_headers : CaseInsensitiveDict.t :=
  CaseInsensitiveDict.of_list [("content-type", "text/html")].

Definition url : string := "https://dev00000.service-now.com/api/now/table/incident".

(** Scenario A *)
Definition incidents : PyVal :=
  PDict [("result", PList [PDict [("number", PStr "INC001"); ("description", PStr "test")]])].
Definition response_A : Response.t :=
  Response.mk 200 "OK" url json_headers (Some incidents).

(** Scenario B *)
Definition unauthorized : PyVal :=
  PDict [("error", PDict [("message", PStr "Unauthorized")])].
Definition response_B : Response.t :=
  Response.mk 401 "Unauthorized" url json_headers (Some unauthorized).

(** Scenario C *)
Definition response_C : Response.t :=
  Response.mk 200 "OK" url html_headers None.

(** Scenario D *)
Definition created : PyVal :=
  PDict [("result", PDict [("number", PStr "INC002")])].
Definition response_D : Response.t :=
  Response.mk 201 "Created" url json_headers (Some created).

(** A response that is neither a success nor an error for
    [raise_for_status]: 300 Multiple Choices, with a JSON body. *)
Definition response_300 : Response.t :=
  Response.mk 300 "Multiple Choices" url json_headers (Some incidents).

(** An undecodable body sent without a Content-Type header. *)
Definition response_bare : Response.t :=
  Response.mk 200 "OK" url ∅ None.

Definition unreachable : ReqExn :=
  mkReqExn [ConnectionError; RequestException] "Max retries exceeded".

Definition timed_out : ReqExn :=
  mkReqExn [RequestException] "Read timed out".

(** An exception object that would be an instance of both classes. *)
Definition both : ReqExn :=
  mkReqExn [ConnectionError; HTTPError; RequestException] "502 Server Error".

Definition rule1 : PyVal :=
  PDict [("sys_name", PStr "r1"); ("sys_created_by", PStr "admin");
         ("sys_updated_by", PStr "admin")].
Definition rule2 : PyVal :=
  PDict [("sys_name", PStr "r2"); ("sys_created_by", PStr "admin");
         ("sys_updated_by", PStr "maint")].
Definition rule3 : PyVal :=
  PDict [("sys_name", PStr "r3"); ("sys_created_by", PStr "system");
         ("sys_updated_by", PStr "admin")].
Definition rules : PyVal := PDict [("result", PList [rule1; rule2; rule3])].

Definition printer_on_fire : string :=
  "<request><entry><short_description>Printer on fire</short_description><urgency>1</urgency><impact>1</impact></entry></request>".

End Scenario.

(** ** Further observations and sample data *)

Definition logged_infos (t : list Event) : list string :=
  omap (fun ev => match ev with LogInfo msg => Some msg | _ => None end) t.

(** A record of the application table that demo 1 can print. *)
Definition has_number_and_description (record : PyVal) : Prop :=
  exists fields number description,
    record = PDict fields /\
    dict_get "number" fields = Some number /\
    dict_get "description" fields = Some description.

(** The line that demo 1 prints for a record, at a rank. *)
Definition demo1_line (py_str : PyVal -> string) (inc : Z) (record : PyVal) : string :=
  match py_getitem record "number", py_getitem record "description" with
  | Returned number, Returned description =>
      pretty inc +:+ ". " +:+ py_str number +:+ " - " +:+ py_str description
  | _, _ => ""
  end.


(** The lines for a list of records, ranked from [inc] on. *)
Fixpoint ranked (line : Z -> PyVal -> string) (inc : Z) (items : list PyVal)
    : list string :=
  match items with
  | [] => []
  | item :: rest => line inc item :: ranked line (inc + 1) rest
  end.

(** A row of the schema that [classFactory] can take in: a mapping with a
    string under [element] and, under [internal_type], a mapping that has
    a [value]. *)
Definition schema_row (attr : PyVal) (element : string) (internal_type value : PyVal)
    : Prop :=
  exists fields type_fields,
    attr = PDict fields /\
    dict_get "element" fields = Some (PStr element) /\
    dict_get "internal_type" fields = Some internal_type /\
    internal_type = PDict type_fields /\
    dict_get "value" type_fields = Some value.

(** The request of the read path. *)
Definition read_request (args : Args.t) (application : PyOptStr) (query : string)
    : Request :=
  mkRequest GET
    (fmt_s (Args.instance args) +:+ "/api/now/table/" +:+ fmt_s application)
    (Args.username args, Args.password args)
    [("Accept", "application/json")] query None.

(** The request of the create path. *)
Definition create_request (args : Args.t) (application : PyOptStr) (query : string)
    : Request :=
  mkRequest POST
    (fmt_s (Args.instance args) +:+ "/api/now/table/" +:+ fmt_s application)
    (Args.username args, Args.password args)
    [("Content-Type", "application/xml"); ("Accept", "application/json")]
    query (Some BuildXML_bytes).

(** Errors are logged and printed in pairs, and [exit()] comes after one
    pair at least. *)
Definition loud (m : M PyVal) : Prop :=
  length (logged_errors (trace m)) = length (printed (trace m)) /\
  (outcome m = Exited -> logged_errors (trace m) <> [] /\ printed (trace m) <> []).


(** A row that is a [schema_row] for some element. *)
Definition schema_row_ok (attr : PyVal) : Prop :=
  exists element internal_type value, schema_row attr element internal_type value.

(** The request of [PullClassSchema]. *)
Definition schema_request (args : Args.t) : Request :=
  mkRequest GET
    (fmt_s (Args.instance args) +:+ "/api/now/table/sys_dictionary")
    (Args.username args, Args.password args)
    [("Accept", "application/json")]
    ("sysparm_query=name=" +:+ fmt_s (Args.application args) +:+ "^ORname=task")
    None.

Module Sample.

Definition busrules_response : Response.t :=
  Response.mk 200 "OK" "https://dev00000.service-now.com/api/now/table/sys_script"
              Scenario.json_headers (Some Scenario.rules).

(** The instance of the scenarios: incidents from the application table,
    business rules from [sys_script]. *)
Definition network (req : Request) : TransportResult :=
  if String.eqb (req_url req) "https://dev00000.service-now.com/api/now/table/sys_script"
  then Responds busrules_response
  else Responds Scenario.response_A.

(** The same instance, with the application table out of reach. *)
Definition network_down (req : Request) : TransportResult :=
  if String.eqb (req_url req) "https://dev00000.service-now.com/api/now/table/sys_script"
  then Responds busrules_response
  else Raises Scenario.unreachable.

Definition response_401_html : Response.t :=
  Response.mk 401 "Unauthorized" Scenario.url Scenario.html_headers None.

Definition interrupted : ReqExn := mkReqExn [] "KeyboardInterrupt".

Definition headers_mixed_case : CaseInsensitiveDict.t :=
  CaseInsensitiveDict.setitem ∅ "CONTENT-type" "text/html".

Definition response_mixed_case : Response.t :=
  Response.mk 200 "OK" Scenario.url headers_mixed_case None.

Definition no_audit : PyVal := PDict [("sys_name", PStr "r4")].

Definition incomplete : PyVal := PDict [("number", PStr "INC003")].

Definition incident1 : PyVal :=
  PDict [("number", PStr "INC001"); ("description", PStr "test")].

Definition string_type : PyVal := PDict [("link", PStr "x"); ("value", PStr "string")].
Definition integer_type : PyVal := PDict [("value", PStr "integer")].

Definition row (element : string) (internal_type : PyVal) : PyVal :=
  PDict [("element", PStr element); ("internal_type", internal_type)].

Definition response_incomplete : Response.t :=
  Response.mk 200 "OK" Scenario.url Scenario.json_headers
              (Some (PDict [("result", PList [incident1; incomplete; incident1])])).

Definition schema : PyVal :=
  PDict [("result", PList [row "number" string_type; row "priority" integer_type;
                           row "number" integer_type])].

Definition schema_response : Response.t :=
  Response.mk 200 "OK" "https://dev00000.service-now.com/api/now/table/sys_dictionary"
              Scenario.json_headers (Some schema).

End Sample.

(** * Properties *)

(** ** Python values and the business-rule filter *)

Lemma py_ne_str (a b : string) : py_ne (PStr a) (PStr b) = true <-> a <> b.
Proof.
  unfold py_ne. simpl. destruct (String.eqb_spec a b); simpl; split; congruence.
Qed.

Lemma identifyCustomBusinessRules_step_spec (acc : list PyVal) (rule : PyVal) :
  has_audit_keys rule ->
  identifyCustomBusinessRules_step acc rule
  = Returned (if creator_differs rule then acc ++ [rule] else acc).
Proof.
  intros (fields & created & updated & -> & Hc & Hu).
  unfold identifyCustomBusinessRules_step, creator_differs. simpl.
  rewrite Hc, Hu. simpl. by destruct (py_ne created updated).
Qed.

Lemma identifyCustomBusinessRules_loop_spec (rules acc : list PyVal) :
  Forall has_audit_keys rules ->
  identifyCustomBusinessRules_loop acc rules
  = Returned (acc ++ List.filter creator_differs rules).
Proof.
  intros Hall. revert acc.
  induction Hall as [|rule rest Hrule _ IH]; intros acc; simpl.
  - by rewrite app_nil_r.
  - rewrite identifyCustomBusinessRules_step_spec by done. simpl.
    rewrite IH. destruct (creator_differs rule); [by rewrite <- app_assoc | done].
Qed.

(** C8.  On a payload whose ["result"] is a list of record mappings that
    all have the keys [sys_created_by] and [sys_updated_by],
    [identifyCustomBusinessRules] returns the records whose two values
    differ, and only those, in the order of the payload. *)
Theorem identifyCustomBusinessRules_filters
    (items : list (string * PyVal)) (rules : list PyVal) :
  dict_get "result" items = Some (PList rules) ->
  Forall has_audit_keys rules ->
  identifyCustomBusinessRules (PDict items)
  = Returned (List.filter creator_differs rules).
Proof.
  intros Hresult Hall. unfold identifyCustomBusinessRules. simpl.
  rewrite Hresult. simpl.
  by rewrite identifyCustomBusinessRules_loop_spec.
Qed.

(** ** ElementTree and BuildXML *)

Lemma lookup_app_add (heap l : ET.Store) (i : nat) :
  (heap ++ l) !! (length heap + i)%nat = l !! i.
Proof. rewrite lookup_app_r by lia. f_equal. lia. Qed.

Lemma Element_app (heap l : ET.Store) (tag : string) :
  ET.Element (heap ++ l) tag
  = (heap ++ (l ++ [ET.mkNode tag None []]), (length heap + length l)%nat).
Proof. unfold ET.Element. by rewrite length_app, <- app_assoc. Qed.

Lemma append_app (heap l : ET.Store) (i child : nat) :
  ET.append (heap ++ l) (length heap + i) child = heap ++ ET.append l i child.
Proof. unfold ET.append. by rewrite alter_app_r. Qed.

Lemma set_text_app (heap l : ET.Store) (i : nat) (s : string) :
  ET.set_text (heap ++ l) (length heap + i) s = heap ++ ET.set_text l i s.
Proof. unfold ET.set_text. by rewrite alter_app_r. Qed.

Lemma SubElement_app (heap l : ET.Store) (i : nat) (tag : string) :
  ET.SubElement (heap ++ l) (length heap + i) tag
  = (heap ++ ET.append (l ++ [ET.mkNode tag None []]) i (length heap + length l),
     (length heap + length l)%nat).
Proof. unfold ET.SubElement. rewrite Element_app. by rewrite append_app. Qed.

(** An element with a text and no child. *)
Lemma serialize_leaf (fuel : nat) (st : ET.Store) (e : nat) (tag s : string) :
  st !! e = Some (ET.mkNode tag (Some s) []) ->
  s <> "" ->
  ET.serialize_xml (S fuel) st e
  = Some ("<" +:+ tag +:+ ">" +:+ ET.escape_cdata s +:+ "</" +:+ tag +:+ ">").
Proof. intros He Hs. simpl. rewrite He. by destruct s. Qed.

(** An element with children and no text. *)
Lemma serialize_inner (fuel : nat) (st : ET.Store) (e : nat) (tag : string)
    (kids : list nat) :
  st !! e = Some (ET.mkNode tag None kids) ->
  kids <> [] ->
  ET.serialize_xml (S fuel) st e
  = inner ← mapM (ET.serialize_xml fuel st) kids;
    Some ("<" +:+ tag +:+ ">" +:+ foldr String.app "" inner +:+ "</" +:+ tag +:+ ">").
Proof.
  intros He Hkids. simpl. rewrite He. simpl.
  rewrite bool_decide_eq_false_2 by done. reflexivity.
Qed.

Ltac store_lookup := first [by rewrite lookup_app_add | done].

(** Whatever elements exist already, [BuildXML] returns the same bytes. *)
Lemma BuildXML_returns (heap : ET.Store) :
  BuildXML heap = ([], Returned BuildXML_bytes).
Proof.
  unfold BuildXML.
  rewrite <- (app_nil_r heap) at 1. rewrite Element_app. simpl length.
  rewrite Element_app. simpl length. simpl app.
  rewrite append_app.
  rewrite SubElement_app, set_text_app.
  rewrite SubElement_app, set_text_app.
  rewrite SubElement_app, set_text_app.
  simpl.
  unfold ET.tostring. rewrite length_app. simpl length.
  replace (S (length heap + 5)) with (S (S (S (length heap + 3)))) by lia.
  rewrite (serialize_inner _ _ _ "request" [length heap + 1]%nat) by store_lookup.
  cbn [mapM].
  rewrite (serialize_inner _ _ _ "entry"
             [length heap + 2; length heap + 3; length heap + 4]%nat) by store_lookup.
  cbn [mapM].
  rewrite (serialize_leaf _ _ (length heap + 2) "short_description" "The sky is falling!")
    by store_lookup.
  rewrite (serialize_leaf _ _ (length heap + 3) "urgency" "2") by store_lookup.
  rewrite (serialize_leaf _ _ (length heap + 4) "impact" "2") by store_lookup.
  reflexivity.
Qed.

(** ** The fetcher *)

Lemma string_app_assoc (a b c : string) : (a +:+ b) +:+ c = a +:+ b +:+ c.
Proof.
  induction a as [|x a IH]; [done|].
  change (String x ((a +:+ b) +:+ c) = String x (a +:+ b +:+ c)). by f_equal.
Qed.

Lemma string_app_nil_r (a : string) : a +:+ "" = a.
Proof.
  induction a as [|x a IH]; [done|].
  change (String x (a +:+ "") = String x a). by f_equal.
Qed.

Lemma contains_prefix (a b : string) : contains (a +:+ b) a.
Proof. by exists "", b. Qed.

Lemma contains_suffix (a b : string) : contains (a +:+ b) b.
Proof. exists a, "". by rewrite string_app_nil_r. Qed.

Lemma contains_app_l (a b sub : string) : contains a sub -> contains (a +:+ b) sub.
Proof.
  intros (pre & post & ->). exists pre, (post +:+ b).
  by rewrite !string_app_assoc.
Qed.

Lemma contains_app_r (a b sub : string) : contains b sub -> contains (a +:+ b) sub.
Proof.
  intros (pre & post & ->). exists (a +:+ pre), post.
  by rewrite !string_app_assoc.
Qed.

Lemma raise_for_status_None (response : Response.t) :
  raise_for_status response = None
  <-> ~ (400 <= Response.status_code response < 600).
Proof.
  unfold raise_for_status.
  repeat case_match; split; intros; try done; try lia.
Qed.

Lemma raise_for_status_Some (response : Response.t) :
  400 <= Response.status_code response < 600 ->
  exists label,
    raise_for_status response
    = Some (mkReqExn [HTTPError; RequestException]
              (pretty (Response.status_code response) +:+ label)).
Proof.
  intros Hstatus. unfold raise_for_status.
  repeat case_match; try lia; eauto.
Qed.

Lemma continues_as_observed {A} (m k : M A) :
  continues_as m k ->
  outcome m = outcome k /\
  printed (trace m) = printed (trace k) /\
  logged_errors (trace m) = logged_errors (trace k) /\
  json_decodes (trace m) = json_decodes (trace k) /\
  exists req, sent (trace m) = req :: sent (trace k).
Proof. intros (info & req & ->). simpl. eauto 10. Qed.

Section Fetcher.

Variable py_str : PyVal -> string.
Variable heap : ET.Store.
Variable args : Args.t.

(** *** The [else] clause *)

Lemma else_decoded (response : Response.t) (data : PyVal) :
  Response.json response = Some data ->
  getAllTableRecords_else args response
  = ([JsonDecode;
      LogInfo ("Successfully retrieved all " +:+ fmt_s (Args.application args)
               +:+ " records ")],
     Returned data).
Proof. intros Hjson. unfold getAllTableRecords_else. by rewrite Hjson. Qed.

Lemma else_undecodable (response : Response.t) (content_type : string) :
  Response.json response = None ->
  header_value response "Content-Type" = Some content_type ->
  getAllTableRecords_else args response
  = (JsonDecode :: LogError decode_failure_message :: Print decode_failure_message
       :: (if String.eqb content_type "text/html"
           then [LogError instance_active_hint; Print instance_active_hint]
           else []),
     Exited).
Proof.
  unfold header_value, getAllTableRecords_else, CaseInsensitiveDict.getitem.
  intros -> Hct.
  destruct (Response.headers response !! _) as [[name ct]|]; simplify_eq/=.
  by destruct (String.eqb content_type "text/html").
Qed.

Lemma else_undecodable_bare (response : Response.t) :
  Response.json response = None ->
  header_value response "Content-Type" = None ->
  getAllTableRecords_else args response
  = ([JsonDecode; LogError decode_failure_message; Print decode_failure_message],
     Raised (KeyError "content-type")).
Proof.
  unfold header_value, getAllTableRecords_else, CaseInsensitiveDict.getitem.
  intros -> Hct.
  by destruct (Response.headers response !! _) as [[name ct]|]; simplify_eq/=.
Qed.

Lemma createRecord_else_eq (response : Response.t) :
  createRecord_else args response = getAllTableRecords_else args response.
Proof. reflexivity. Qed.

Lemma else_sends_nothing (response : Response.t) :
  sent (trace (getAllTableRecords_else args response)) = [].
Proof.
  destruct (Response.json response) as [data|] eqn:Hjson.
  - by rewrite (else_decoded _ data).
  - destruct (header_value response "Content-Type") as [ct|] eqn:Hct.
    + rewrite (else_undecodable _ ct) by done.
      by destruct (String.eqb ct "text/html").
    + by rewrite else_undecodable_bare.
Qed.

(** *** The [except] clauses *)

Lemma except_http (response : Response.t) (e : ReqExn) (body : PyVal) :
  isinstance e HTTPError = true ->
  Response.json response = Some body ->
  getAllTableRecords_except py_str (Some response) e
  = ([JsonDecode; LogError (exn_str e +:+ ":" +:+ py_str body);
      JsonDecode; Print (exn_str e +:+ " -- " +:+ py_str body)],
     Exited).
Proof.
  intros He Hjson. unfold getAllTableRecords_except, response_json.
  rewrite He. simpl. by rewrite Hjson.
Qed.

Lemma except_http_undecodable (response : Response.t) (e : ReqExn) :
  isinstance e HTTPError = true ->
  Response.json response = None ->
  getAllTableRecords_except py_str (Some response) e
  = ([JsonDecode], Raised JSONDecodeError).
Proof.
  intros He Hjson. unfold getAllTableRecords_except, response_json.
  rewrite He. simpl. by rewrite Hjson.
Qed.

Lemma except_http_unbound (e : ReqExn) :
  isinstance e HTTPError = true ->
  getAllTableRecords_except py_str None e
  = ([], Raised (UnboundLocalError "response")).
Proof. intros He. unfold getAllTableRecords_except. by rewrite He. Qed.

Lemma except_connection (response : option Response.t) (e : ReqExn) :
  isinstance e HTTPError = false ->
  isinstance e ConnectionError = true ->
  getAllTableRecords_except py_str response e
  = ([LogError (exn_str e); Print (connection_message +:+ exn_str e)], Exited).
Proof. intros Hh Hc. unfold getAllTableRecords_except. by rewrite Hh, Hc. Qed.

Lemma except_request (response : option Response.t) (e : ReqExn) :
  isinstance e HTTPError = false ->
  isinstance e ConnectionError = false ->
  isinstance e RequestException = true ->
  getAllTableRecords_except py_str response e
  = ([LogError (exn_str e); Print (request_message +:+ exn_str e)], Exited).
Proof. intros Hh Hc Hr. unfold getAllTableRecords_except. by rewrite Hh, Hc, Hr. Qed.

Lemma except_uncaught (response : option Response.t) (e : ReqExn) :
  isinstance e HTTPError = false ->
  isinstance e ConnectionError = false ->
  isinstance e RequestException = false ->
  getAllTableRecords_except py_str response e = ([], Raised (Propagated e)).
Proof. intros Hh Hc Hr. unfold getAllTableRecords_except. by rewrite Hh, Hc, Hr. Qed.

(** When [requests.get] itself raised, no handler decodes anything. *)
Lemma except_unbound_no_decode (e : ReqExn) :
  json_decodes (trace (getAllTableRecords_except py_str None e)) = [].
Proof.
  unfold getAllTableRecords_except.
  by repeat (case_match; simpl).
Qed.

Lemma except_sends_nothing (response : option Response.t) (e : ReqExn) :
  sent (trace (getAllTableRecords_except py_str response e)) = [].
Proof.
  unfold getAllTableRecords_except, response_json.
  destruct response as [response|]; [destruct (Response.json response)|];
    by repeat (case_match; simpl).
Qed.

(** *** The read path as a whole *)

Lemma getAllTableRecords_raises transport application query (e : ReqExn) :
  answered transport (getAllTableRecords py_str transport args application query)
           (Raises e) ->
  continues_as (getAllTableRecords py_str transport args application query)
               (getAllTableRecords_except py_str None e).
Proof.
  intros Hnet. eexists _, _.
  unfold getAllTableRecords, requests_get. simpl.
  rewrite (Hnet _); [reflexivity|].
  unfold getAllTableRecords, requests_get. simpl. apply list_elem_of_here.
Qed.

Lemma getAllTableRecords_refused transport application query
    (response : Response.t) (eh : ReqExn) :
  answered transport (getAllTableRecords py_str transport args application query)
           (Responds response) ->
  raise_for_status response = Some eh ->
  continues_as (getAllTableRecords py_str transport args application query)
               (getAllTableRecords_except py_str (Some response) eh).
Proof.
  intros Hnet Hstatus. eexists _, _.
  unfold getAllTableRecords, requests_get. simpl.
  rewrite (Hnet _); [by rewrite Hstatus|].
  unfold getAllTableRecords, requests_get. simpl. apply list_elem_of_here.
Qed.

Lemma getAllTableRecords_passed transport application query
    (response : Response.t) :
  answered transport (getAllTableRecords py_str transport args application query)
           (Responds response) ->
  raise_for_status response = None ->
  continues_as (getAllTableRecords py_str transport args application query)
               (getAllTableRecords_else args response).
Proof.
  intros Hnet Hstatus. eexists _, _.
  unfold getAllTableRecords, requests_get. simpl.
  rewrite (Hnet _); [by rewrite Hstatus|].
  unfold getAllTableRecords, requests_get. simpl. apply list_elem_of_here.
Qed.

Lemma getAllTableRecords_sent transport application query :
  sent (trace (getAllTableRecords py_str transport args application query))
  = [mkRequest GET
       (fmt_s (Args.instance args) +:+ "/api/now/table/" +:+ fmt_s application)
       (Args.username args, Args.password args)
       [("Accept", "application/json")] query None].
Proof.
  unfold getAllTableRecords, requests_get. simpl. f_equal.
  destruct (transport _) as [e|response].
  - apply except_sends_nothing.
  - destruct (raise_for_status response).
    + apply except_sends_nothing.
    + apply else_sends_nothing.
Qed.

(** *** The create path *)

(** Outside the connection-error clause the handlers of the two paths
    are the same. *)
Lemma createRecord_except_eq (response : option Response.t) (e : ReqExn) :
  isinstance e HTTPError = true \/ isinstance e ConnectionError = false ->
  createRecord_except py_str response e = getAllTableRecords_except py_str response e.
Proof.
  unfold createRecord_except, getAllTableRecords_except.
  intros [-> | Hc]; [done|]. rewrite Hc. done.
Qed.

Lemma createRecord_except_connection (response : option Response.t) (e : ReqExn) :
  isinstance e HTTPError = false ->
  isinstance e ConnectionError = true ->
  createRecord_except py_str response e
  = ([LogError (exn_str e); Print (create_connection_message +:+ exn_str e)], Exited).
Proof. intros Hh Hc. unfold createRecord_except. by rewrite Hh, Hc. Qed.

Lemma createRecord_except_same (response : option Response.t) (e : ReqExn) :
  outcome (createRecord_except py_str response e)
  = outcome (getAllTableRecords_except py_str response e) /\
  logged_errors (trace (createRecord_except py_str response e))
  = logged_errors (trace (getAllTableRecords_except py_str response e)) /\
  json_decodes (trace (createRecord_except py_str response e))
  = json_decodes (trace (getAllTableRecords_except py_str response e)).
Proof.
  destruct (isinstance e HTTPError) eqn:Hh;
    [by rewrite createRecord_except_eq by auto|].
  destruct (isinstance e ConnectionError) eqn:Hc;
    [|by rewrite createRecord_except_eq by auto].
  by rewrite createRecord_except_connection, except_connection.
Qed.

Lemma createRecord_raises transport application query (e : ReqExn) :
  answered transport (createRecord py_str transport heap args application query)
           (Raises e) ->
  continues_as (createRecord py_str transport heap args application query)
               (createRecord_except py_str None e).
Proof.
  intros Hnet. eexists _, _.
  unfold createRecord, requests_post. rewrite BuildXML_returns. simpl.
  rewrite (Hnet _); [reflexivity|].
  unfold createRecord, requests_post. rewrite BuildXML_returns. simpl.
  apply list_elem_of_here.
Qed.

Lemma createRecord_refused transport application query
    (response : Response.t) (eh : ReqExn) :
  answered transport (createRecord py_str transport heap args application query)
           (Responds response) ->
  raise_for_status response = Some eh ->
  continues_as (createRecord py_str transport heap args application query)
               (createRecord_except py_str (Some response) eh).
Proof.
  intros Hnet Hstatus. eexists _, _.
  unfold createRecord, requests_post. rewrite BuildXML_returns. simpl.
  rewrite (Hnet _); [by rewrite Hstatus|].
  unfold createRecord, requests_post. rewrite BuildXML_returns. simpl.
  apply list_elem_of_here.
Qed.

Lemma createRecord_passed transport application query (response : Response.t) :
  answered transport (createRecord py_str transport heap args application query)
           (Responds response) ->
  raise_for_status response = None ->
  continues_as (createRecord py_str transport heap args application query)
               (createRecord_else args response).
Proof.
  intros Hnet Hstatus. eexists _, _.
  unfold createRecord, requests_post. rewrite BuildXML_returns. simpl.
  rewrite (Hnet _); [by rewrite Hstatus|].
  unfold createRecord, requests_post. rewrite BuildXML_returns. simpl.
  apply list_elem_of_here.
Qed.

Lemma createRecord_except_sends_nothing (response : option Response.t) (e : ReqExn) :
  sent (trace (createRecord_except py_str response e)) = [].
Proof.
  unfold createRecord_except, response_json.
  destruct response as [response|]; [destruct (Response.json response)|];
    by repeat (case_match; simpl).
Qed.

Lemma createRecord_sent transport application query :
  sent (trace (createRecord py_str transport heap args application query))
  = [mkRequest POST
       (fmt_s (Args.instance args) +:+ "/api/now/table/" +:+ fmt_s application)
       (Args.username args, Args.password args)
       [("Content-Type", "application/xml"); ("Accept", "application/json")]
       query (Some BuildXML_bytes)].
Proof.
  unfold createRecord, requests_post. rewrite BuildXML_returns. simpl. f_equal.
  destruct (transport _) as [e|response].
  - apply createRecord_except_sends_nothing.
  - destruct (raise_for_status response).
    + apply createRecord_except_sends_nothing.
    + rewrite createRecord_else_eq. apply else_sends_nothing.
Qed.

(** The two paths end the same way on the same answer of the network. *)
Lemma createRecord_like_getAllTableRecords transport_post transport_get
    application query application' query' (result : TransportResult) :
  answered transport_post
           (createRecord py_str transport_post heap args application query) result ->
  answered transport_get
           (getAllTableRecords py_str transport_get args application' query') result ->
  outcome (createRecord py_str transport_post heap args application query)
  = outcome (getAllTableRecords py_str transport_get args application' query') /\
  logged_errors (trace (createRecord py_str transport_post heap args application query))
  = logged_errors (trace (getAllTableRecords py_str transport_get args application' query')) /\
  json_decodes (trace (createRecord py_str transport_post heap args application query))
  = json_decodes (trace (getAllTableRecords py_str transport_get args application' query')).
Proof.
  intros Hpost Hget.
  destruct result as [e|response]; [|destruct (raise_for_status response) as [eh|] eqn:Hs].
  - apply createRecord_raises, continues_as_observed in Hpost
      as (-> & _ & -> & -> & _).
    apply getAllTableRecords_raises, continues_as_observed in Hget
      as (-> & _ & -> & -> & _).
    apply createRecord_except_same.
  - eapply createRecord_refused, continues_as_observed in Hpost
      as (-> & _ & -> & -> & _); [|done].
    eapply getAllTableRecords_refused, continues_as_observed in Hget
      as (-> & _ & -> & -> & _); [|done].
    apply createRecord_except_same.
  - eapply createRecord_passed, continues_as_observed in Hpost
      as (-> & _ & -> & -> & _); [|done].
    eapply getAllTableRecords_passed, continues_as_observed in Hget
      as (-> & _ & -> & -> & _); [|done].
    by rewrite createRecord_else_eq.
Qed.

(** *** What the callers of the fetcher can rely on *)

(** C1.  When the GET request is answered with a 2xx status and the body
    decodes as JSON, [getAllTableRecords] returns the decoded value as
    it is. *)
Theorem getAllTableRecords_returns_decoded transport application query
    (response : Response.t) (data : PyVal) :
  answered transport (getAllTableRecords py_str transport args application query)
           (Responds response) ->
  200 <= Response.status_code response < 300 ->
  Response.json response = Some data ->
  outcome (getAllTableRecords py_str transport args application query)
  = Returned data.
Proof.
  intros Hnet Hstatus Hjson.
  apply getAllTableRecords_passed, continues_as_observed in Hnet as (-> & _).
  - by rewrite (else_decoded _ data).
  - apply raise_for_status_None. lia.
Qed.

(** C2, as the code has it.  When the request is answered with a 4xx or
    5xx status (the statuses that [raise_for_status] rejects) and the
    body decodes as JSON, [getAllTableRecords] logs one error, made of
    the text of the [HTTPError], which begins with the status, and of
    the decoded body, prints them as well, and leaves through [exit()]
    without returning. *)
Theorem getAllTableRecords_http_error transport application query
    (response : Response.t) (body : PyVal) :
  answered transport (getAllTableRecords py_str transport args application query)
           (Responds response) ->
  400 <= Response.status_code response < 600 ->
  Response.json response = Some body ->
  exists msg line,
    logged_errors (trace (getAllTableRecords py_str transport args application query))
    = [msg] /\
    contains msg (pretty (Response.status_code response)) /\
    contains msg (py_str body) /\
    printed (trace (getAllTableRecords py_str transport args application query))
    = [line] /\
    contains line (pretty (Response.status_code response)) /\
    contains line (py_str body) /\
    outcome (getAllTableRecords py_str transport args application query) = Exited.
Proof.
  intros Hnet Hstatus Hjson.
  destruct (raise_for_status_Some response Hstatus) as [label Heh].
  eapply getAllTableRecords_refused, continues_as_observed in Hnet
    as (-> & -> & -> & _); [|done].
  rewrite (except_http _ _ body) by done. simpl.
  eexists _, _. repeat split.
  - apply contains_app_l, contains_prefix.
  - apply contains_app_r, contains_suffix.
  - apply contains_app_l, contains_prefix.
  - apply contains_app_r, contains_suffix.
Qed.

(** C3.  When a 2xx response has a body that does not decode,
    [getAllTableRecords] does not return: it leaves through [exit()]
    whenever the response has a Content-Type header, and what it prints
    has the hint on the instance being active exactly when the value of
    that header is the string [text/html]; otherwise only the
    decode-failure message is printed. *)
Theorem getAllTableRecords_undecodable transport application query
    (response : Response.t) :
  answered transport (getAllTableRecords py_str transport args application query)
           (Responds response) ->
  200 <= Response.status_code response < 300 ->
  Response.json response = None ->
  terminated (outcome (getAllTableRecords py_str transport args application query)) /\
  (is_Some (header_value response "Content-Type") ->
   outcome (getAllTableRecords py_str transport args application query) = Exited) /\
  (instance_active_hint
     ∈ printed (trace (getAllTableRecords py_str transport args application query))
   <-> header_value response "Content-Type" = Some "text/html") /\
  (header_value response "Content-Type" <> Some "text/html" ->
   printed (trace (getAllTableRecords py_str transport args application query))
   = [decode_failure_message]).
Proof.
  intros Hnet Hstatus Hjson.
  apply getAllTableRecords_passed, continues_as_observed in Hnet
    as (-> & -> & _); [|apply raise_for_status_None; lia].
  destruct (header_value response "Content-Type") as [ct|] eqn:Hct.
  - rewrite (else_undecodable _ ct) by done. simpl.
    destruct (String.eqb_spec ct "text/html") as [->|Hne]; simpl.
    + repeat split; try done.
      intros _. apply list_elem_of_further, list_elem_of_here.
    + repeat split; try done; try congruence.
      intros Hin. apply list_elem_of_singleton in Hin. done.
  - rewrite else_undecodable_bare by done. simpl.
    repeat split; try done; try (by intros [? ?]).
    intros Hin. apply list_elem_of_singleton in Hin. done.
Qed.

(** C4.  When the transport raises, the JSON decoding is never reached;
    on a connection error [getAllTableRecords] logs it, prints the
    connectivity message and leaves through [exit()], and on another
    request error it prints the generic message and leaves as well. *)
Theorem getAllTableRecords_connection_error transport application query
    (e : ReqExn) :
  answered transport (getAllTableRecords py_str transport args application query)
           (Raises e) ->
  json_decodes (trace (getAllTableRecords py_str transport args application query))
  = [] /\
  (isinstance e HTTPError = false -> isinstance e ConnectionError = true ->
   outcome (getAllTableRecords py_str transport args application query) = Exited /\
   logged_errors (trace (getAllTableRecords py_str transport args application query))
   = [exn_str e] /\
   printed (trace (getAllTableRecords py_str transport args application query))
   = [connection_message +:+ exn_str e]) /\
  (isinstance e HTTPError = false -> isinstance e ConnectionError = false ->
   isinstance e RequestException = true ->
   outcome (getAllTableRecords py_str transport args application query) = Exited /\
   logged_errors (trace (getAllTableRecords py_str transport args application query))
   = [exn_str e] /\
   printed (trace (getAllTableRecords py_str transport args application query))
   = [request_message +:+ exn_str e]).
Proof.
  intros Hnet.
  apply getAllTableRecords_raises, continues_as_observed in Hnet
    as (-> & -> & -> & -> & _).
  split; [apply except_unbound_no_decode|]. split.
  - intros Hh Hc. by rewrite except_connection.
  - intros Hh Hc Hr. by rewrite except_request.
Qed.

(** C5.  An exception that is an instance of [HTTPError] is handled by
    the [HTTPError] clause, whatever else it is an instance of: the
    handlers act on it as on a plain [HTTPError] with the same text, and
    with a decodable body the error is logged and printed in the form of
    the HTTP error. *)
Theorem http_error_takes_precedence (response : option Response.t) (e : ReqExn) :
  isinstance e HTTPError = true ->
  getAllTableRecords_except py_str response e
  = getAllTableRecords_except py_str response (mkReqExn [HTTPError] (exn_str e)) /\
  (forall r body,
     response = Some r -> Response.json r = Some body ->
     getAllTableRecords_except py_str response e
     = ([JsonDecode; LogError (exn_str e +:+ ":" +:+ py_str body);
         JsonDecode; Print (exn_str e +:+ " -- " +:+ py_str body)],
        Exited)).
Proof.
  intros He. split.
  - unfold getAllTableRecords_except. by rewrite He.
  - intros r body -> Hjson. by apply except_http.
Qed.

(** C6, as the code has it.  [createRecord] sends one request: a POST to
    the table address, with the headers [Content-Type: application/xml]
    and [Accept: application/json], whose payload is the XML document
    that [BuildXML] builds
    ([<request><entry><short_description>..</short_description>
    <urgency>..</urgency><impact>..</impact></entry></request>]), not a
    document of the caller; on the same answer of the network it ends as
    [getAllTableRecords] does and logs the same errors. *)
Theorem createRecord_posts_BuildXML transport application query :
  sent (trace (createRecord py_str transport heap args application query))
  = [mkRequest POST
       (fmt_s (Args.instance args) +:+ "/api/now/table/" +:+ fmt_s application)
       (Args.username args, Args.password args)
       [("Content-Type", "application/xml"); ("Accept", "application/json")]
       query (Some BuildXML_bytes)] /\
  (forall transport_get application' query' result,
     answered transport
              (createRecord py_str transport heap args application query) result ->
     answered transport_get
              (getAllTableRecords py_str transport_get args application' query') result ->
     outcome (createRecord py_str transport heap args application query)
     = outcome (getAllTableRecords py_str transport_get args application' query') /\
     logged_errors (trace (createRecord py_str transport heap args application query))
     = logged_errors
         (trace (getAllTableRecords py_str transport_get args application' query'))).
Proof.
  split; [apply createRecord_sent|].
  intros transport_get application' query' result Hpost Hget.
  destruct (createRecord_like_getAllTableRecords _ _ _ _ _ _ _ Hpost Hget)
    as (? & ? & _).
  done.
Qed.

(** C9.  In the decode-failure branch of both paths the Content-Type
    header is read with a plain item access: the branch reaches its
    [exit()] exactly when the response has the header, and on a response
    without it the access raises [KeyError] once the decode-failure
    message has been printed. *)
Theorem decode_failure_needs_content_type transport_get transport_post
    application query (response : Response.t) :
  answered transport_get
           (getAllTableRecords py_str transport_get args application query)
           (Responds response) ->
  answered transport_post
           (createRecord py_str transport_post heap args application query)
           (Responds response) ->
  ~ (400 <= Response.status_code response < 600) ->
  Response.json response = None ->
  (outcome (getAllTableRecords py_str transport_get args application query) = Exited
   <-> is_Some (header_value response "Content-Type")) /\
  (outcome (createRecord py_str transport_post heap args application query) = Exited
   <-> is_Some (header_value response "Content-Type")) /\
  (header_value response "Content-Type" = None ->
   outcome (getAllTableRecords py_str transport_get args application query)
   = Raised (KeyError "content-type") /\
   printed (trace (getAllTableRecords py_str transport_get args application query))
   = [decode_failure_message] /\
   outcome (createRecord py_str transport_post heap args application query)
   = Raised (KeyError "content-type") /\
   printed (trace (createRecord py_str transport_post heap args application query))
   = [decode_failure_message]).
Proof.
  intros Hget Hpost Hstatus Hjson.
  apply raise_for_status_None in Hstatus.
  apply getAllTableRecords_passed, continues_as_observed in Hget
    as (-> & -> & _); [|done].
  apply createRecord_passed, continues_as_observed in Hpost
    as (-> & -> & _); [|done].
  change (createRecord_else args response)
    with (getAllTableRecords_else args response).
  destruct (header_value response "Content-Type") as [ct|] eqn:Hct.
  - rewrite (else_undecodable _ ct) by done. simpl.
    repeat split; eauto; done.
  - rewrite else_undecodable_bare by done. simpl.
    repeat split; try done; by intros [? ?].
Qed.

End Fetcher.

(** C7.  For a base address and a resource name, the read path and the
    create path both send their request to
    [{base}/api/now/table/{resourceName}]. *)
Theorem target_address py_str transport heap (base resourceName : string)
    (username password application : PyOptStr) (query : string) :
  req_url <$> sent (trace (getAllTableRecords py_str transport
                             (Args.mk (Some base) username password application)
                             (Some resourceName) query))
  = [base +:+ "/api/now/table/" +:+ resourceName] /\
  req_url <$> sent (trace (createRecord py_str transport heap
                             (Args.mk (Some base) username password application)
                             (Some resourceName) query))
  = [base +:+ "/api/now/table/" +:+ resourceName].
Proof. by rewrite getAllTableRecords_sent, createRecord_sent. Qed.

(** C10.  [BuildXML] is constant: whenever it is called it returns the same
    bytes, in which the short description is ['The sky is falling!'], the
    urgency ['2'] and the impact ['2']; hence the payload of the request
    that [createRecord] sends does not depend on what its caller passes. *)
Theorem BuildXML_constant :
  (forall heap, BuildXML heap = ([], Returned BuildXML_bytes)) /\
  contains BuildXML_bytes "<short_description>The sky is falling!</short_description>" /\
  contains BuildXML_bytes "<urgency>2</urgency>" /\
  contains BuildXML_bytes "<impact>2</impact>" /\
  (forall py_str transport heap args application query,
     req_data <$> sent (trace (createRecord py_str transport heap args application query))
     = [Some BuildXML_bytes]).
Proof.
  split; [apply BuildXML_returns|]. repeat split.
  - by exists "<request><entry>", "<urgency>2</urgency><impact>2</impact></entry></request>".
  - by exists "<request><entry><short_description>The sky is falling!</short_description>",
              "<impact>2</impact></entry></request>".
  - by exists "<request><entry><short_description>The sky is falling!</short_description><urgency>2</urgency>",
              "</entry></request>".
  - intros. by rewrite createRecord_sent.
Qed.

(** ** The claims that the code does not meet as they are worded *)

(** C2 fails on a status that is neither 2xx nor rejected by
    [raise_for_status]: a 300 response with a JSON body is returned to the
    caller, and no error is logged. *)
Lemma getAllTableRecords_returns_on_300 :
  ~ (200 <= Response.status_code Scenario.response_300 < 300) /\
  outcome (getAllTableRecords Scenario.py_str (fun _ => Responds Scenario.response_300)
             Scenario.args (Some "incident") "")
  = Returned Scenario.incidents /\
  logged_errors (trace (getAllTableRecords Scenario.py_str
                          (fun _ => Responds Scenario.response_300)
                          Scenario.args (Some "incident") ""))
  = [].
Proof. split; [simpl; lia | split; reflexivity]. Qed.

(** C6 fails on the origin of the payload: the request that [createRecord]
    sends is not the one that carries the document of the caller. *)
Lemma createRecord_ignores_caller_body :
  sent (trace (createRecord Scenario.py_str (fun _ => Responds Scenario.response_D) []
                 Scenario.args (Some "incident") ""))
  <> [spec_create_request Scenario.args (Some "incident") "" Scenario.printer_on_fire].
Proof. rewrite createRecord_sent. unfold spec_create_request. intros H. discriminate H. Qed.

(** ** The properties at the sample calls *)

Lemma identifyCustomBusinessRules_filters_witness :
  identifyCustomBusinessRules Scenario.rules
  = Returned [Scenario.rule2; Scenario.rule3].
Proof.
  apply (identifyCustomBusinessRules_filters
           [("result", PList [Scenario.rule1; Scenario.rule2; Scenario.rule3])]
           [Scenario.rule1; Scenario.rule2; Scenario.rule3]).
  - reflexivity.
  - repeat (constructor; [by eexists _, _, _|]). constructor.
Defined.

Lemma getAllTableRecords_returns_decoded_witness :
  outcome (getAllTableRecords Scenario.py_str (fun _ => Responds Scenario.response_A)
             Scenario.args (Some "incident") "")
  = Returned Scenario.incidents.
Proof.
  apply (getAllTableRecords_returns_decoded Scenario.py_str Scenario.args
           (fun _ => Responds Scenario.response_A) (Some "incident") ""
           Scenario.response_A Scenario.incidents).
  - intros req _. reflexivity.
  - simpl. lia.
  - reflexivity.
Defined.

Lemma getAllTableRecords_http_error_witness :
  outcome (getAllTableRecords Scenario.py_str (fun _ => Responds Scenario.response_B)
             Scenario.args (Some "incident") "")
  = Exited.
Proof.
  destruct (getAllTableRecords_http_error Scenario.py_str Scenario.args
              (fun _ => Responds Scenario.response_B) (Some "incident") ""
              Scenario.response_B Scenario.unauthorized)
    as (msg & line & _ & _ & _ & _ & _ & _ & Hexit).
  - intros req _. reflexivity.
  - simpl. lia.
  - reflexivity.
  - exact Hexit.
Defined.

Lemma getAllTableRecords_undecodable_witness :
  instance_active_hint
    ∈ printed (trace (getAllTableRecords Scenario.py_str
                        (fun _ => Responds Scenario.response_C)
                        Scenario.args (Some "incident") "")).
Proof.
  destruct (getAllTableRecords_undecodable Scenario.py_str Scenario.args
              (fun _ => Responds Scenario.response_C) (Some "incident") ""
              Scenario.response_C)
    as (_ & _ & Hhint & _).
  - intros req _. reflexivity.
  - simpl. lia.
  - reflexivity.
  - apply Hhint. vm_compute. reflexivity.
Defined.

Lemma getAllTableRecords_connection_error_witness :
  outcome (getAllTableRecords Scenario.py_str (fun _ => Raises Scenario.unreachable)
             Scenario.args (Some "incident") "")
  = Exited /\
  json_decodes (trace (getAllTableRecords Scenario.py_str
                         (fun _ => Raises Scenario.unreachable)
                         Scenario.args (Some "incident") ""))
  = [].
Proof.
  destruct (getAllTableRecords_connection_error Scenario.py_str Scenario.args
              (fun _ => Raises Scenario.unreachable) (Some "incident") ""
              Scenario.unreachable)
    as (Hdecode & Hconnection & _).
  - intros req _. reflexivity.
  - destruct Hconnection as (Hexit & _).
    + vm_compute. reflexivity.
    + vm_compute. reflexivity.
    + split; [exact Hexit | exact Hdecode].
Defined.

Lemma http_error_takes_precedence_witness :
  isinstance Scenario.both ConnectionError = true /\
  getAllTableRecords_except Scenario.py_str (Some Scenario.response_B) Scenario.both
  = getAllTableRecords_except Scenario.py_str (Some Scenario.response_B)
      (mkReqExn [HTTPError] (exn_str Scenario.both)).
Proof.
  split.
  - vm_compute. reflexivity.
  - refine (proj1 (http_error_takes_precedence Scenario.py_str
                     (Some Scenario.response_B) Scenario.both _)).
    vm_compute. reflexivity.
Defined.

Lemma createRecord_posts_BuildXML_witness :
  outcome (createRecord Scenario.py_str (fun _ => Responds Scenario.response_D) []
             Scenario.args (Some "incident") "")
  = outcome (getAllTableRecords Scenario.py_str (fun _ => Responds Scenario.response_D)
               Scenario.args (Some "incident") "").
Proof.
  destruct (createRecord_posts_BuildXML Scenario.py_str [] Scenario.args
              (fun _ => Responds Scenario.response_D) (Some "incident") "")
    as [_ Hsame].
  destruct (Hsame (fun _ => Responds Scenario.response_D) (Some "incident") ""
              (Responds Scenario.response_D))
    as [Houtcome _].
  - intros req _. reflexivity.
  - intros req _. reflexivity.
  - exact Houtcome.
Defined.

Lemma decode_failure_needs_content_type_witness :
  outcome (getAllTableRecords Scenario.py_str (fun _ => Responds Scenario.response_bare)
             Scenario.args (Some "incident") "")
  = Raised (KeyError "content-type").
Proof.
  destruct (decode_failure_needs_content_type Scenario.py_str [] Scenario.args
              (fun _ => Responds Scenario.response_bare)
              (fun _ => Responds Scenario.response_bare)
              (Some "incident") "" Scenario.response_bare)
    as (_ & _ & Hbare).
  - intros req _. reflexivity.
  - intros req _. reflexivity.
  - simpl. lia.
  - reflexivity.
  - destruct Hbare as (Hraised & _).
    + vm_compute. reflexivity.
    + exact Hraised.
Defined.

(** * Further properties of the script *)

Section FetcherMore.

Variable py_str : PyVal -> string.
Variable heap : ET.Store.
Variable args : Args.t.

Lemma getAllTableRecords_answered_by transport application query :
  answered transport (getAllTableRecords py_str transport args application query)
           (transport (read_request args application query)).
Proof.
  intros req Hin. rewrite getAllTableRecords_sent in Hin.
  apply list_elem_of_singleton in Hin. by subst.
Qed.

Lemma createRecord_answered_by transport application query :
  answered transport (createRecord py_str transport heap args application query)
           (transport (create_request args application query)).
Proof.
  intros req Hin. rewrite createRecord_sent in Hin.
  apply list_elem_of_singleton in Hin. by subst.
Qed.

Lemma except_never_returns (response : option Response.t) (e : ReqExn) (data : PyVal) :
  outcome (getAllTableRecords_except py_str response e) <> Returned data.
Proof.
  unfold getAllTableRecords_except, response_json.
  destruct response as [response|]; [destruct (Response.json response)|];
    by repeat (case_match; simpl).
Qed.

Lemma createRecord_except_never_returns (response : option Response.t) (e : ReqExn)
    (data : PyVal) :
  outcome (createRecord_except py_str response e) <> Returned data.
Proof.
  destruct (createRecord_except_same py_str response e) as (-> & _).
  apply except_never_returns.
Qed.

Lemma else_returns_iff (response : Response.t) (data : PyVal) :
  outcome (getAllTableRecords_else args response) = Returned data
  <-> Response.json response = Some data.
Proof.
  split.
  - destruct (Response.json response) as [d|] eqn:Hjson.
    + rewrite (else_decoded _ _ d) by done. simpl. congruence.
    + destruct (header_value response "Content-Type") as [ct|] eqn:Hct.
      * by rewrite (else_undecodable _ _ ct).
      * by rewrite else_undecodable_bare.
  - intros Hjson. by rewrite (else_decoded _ _ data).
Qed.

Lemma loud_continues (m k : M PyVal) : continues_as m k -> loud k -> loud m.
Proof.
  intros Hm [Hlen Hexit].
  apply continues_as_observed in Hm as (Ho & Hp & Hl & _).
  unfold loud. by rewrite Ho, Hp, Hl.
Qed.

Lemma except_loud (response : option Response.t) (e : ReqExn) :
  loud (getAllTableRecords_except py_str response e).
Proof.
  unfold loud, getAllTableRecords_except, response_json.
  destruct response as [response|]; [destruct (Response.json response)|];
    by repeat (case_match; simpl).
Qed.

Lemma createRecord_except_loud (response : option Response.t) (e : ReqExn) :
  loud (createRecord_except py_str response e).
Proof.
  unfold loud, createRecord_except, response_json.
  destruct response as [response|]; [destruct (Response.json response)|];
    by repeat (case_match; simpl).
Qed.

Lemma else_loud (response : Response.t) :
  loud (getAllTableRecords_else args response).
Proof.
  unfold loud.
  destruct (Response.json response) as [d|] eqn:Hjson.
  - by rewrite (else_decoded _ _ d).
  - destruct (header_value response "Content-Type") as [ct|] eqn:Hct.
    + rewrite (else_undecodable _ _ ct) by done.
      by destruct (String.eqb ct "text/html").
    + by rewrite else_undecodable_bare.
Qed.

(** X1.  Whatever the network answers, [getAllTableRecords] sends one
    request and no more: a GET to the table address, with the credentials
    of [args], the header [Accept: application/json], the query as
    parameters and no payload. *)
Theorem getAllTableRecords_sends_one_request transport application query :
  sent (trace (getAllTableRecords py_str transport args application query))
  = [read_request args application query].
Proof. apply getAllTableRecords_sent. Qed.

(** X2.  [getAllTableRecords] returns a value in one case only: the
    request was answered by a response whose status is not in 400..599
    and whose body decodes, and the value is the decoded body. *)
Theorem getAllTableRecords_returns_iff transport application query
    (result : TransportResult) (data : PyVal) :
  answered transport (getAllTableRecords py_str transport args application query)
           result ->
  outcome (getAllTableRecords py_str transport args application query) = Returned data
  <-> exists response,
        result = Responds response /\
        ~ (400 <= Response.status_code response < 600) /\
        Response.json response = Some data.
Proof.
  intros Hnet.
  destruct result as [e|response];
    [|destruct (raise_for_status response) as [eh|] eqn:Hstatus].
  - apply getAllTableRecords_raises, continues_as_observed in Hnet as (-> & _).
    split; [by intros ?%except_never_returns | by intros (? & ? & _)].
  - eapply getAllTableRecords_refused, continues_as_observed in Hnet
      as (-> & _); [|done].
    split; [by intros ?%except_never_returns|].
    intros (r & [= <-] & Hpass%raise_for_status_None & _). congruence.
  - eapply getAllTableRecords_passed, continues_as_observed in Hnet
      as (-> & _); [|done].
    rewrite else_returns_iff. split.
    + intros Hjson. exists response. by rewrite <- raise_for_status_None.
    + by intros (r & [= <-] & _ & Hjson).
Qed.

(** X3.  When the response has a 4xx or 5xx status and a body that does
    not decode, the [HTTPError] handler fails in its own
    [response.json()]: [getAllTableRecords] ends in [JSONDecodeError],
    having logged no error and printed nothing. *)
Theorem getAllTableRecords_http_error_undecodable transport application query
    (response : Response.t) :
  answered transport (getAllTableRecords py_str transport args application query)
           (Responds response) ->
  400 <= Response.status_code response < 600 ->
  Response.json response = None ->
  outcome (getAllTableRecords py_str transport args application query)
  = Raised JSONDecodeError /\
  logged_errors (trace (getAllTableRecords py_str transport args application query)) = [] /\
  printed (trace (getAllTableRecords py_str transport args application query)) = [].
Proof.
  intros Hnet Hstatus Hjson.
  destruct (raise_for_status_Some response Hstatus) as [label Heh].
  eapply getAllTableRecords_refused, continues_as_observed in Hnet
    as (-> & -> & -> & _); [|done].
  by rewrite except_http_undecodable.
Qed.

(** X4.  An exception of the transport that is no [RequestException]
    leaves [getAllTableRecords] as it came: nothing is logged as an
    error, nothing is printed, and [exit()] is not called. *)
Theorem getAllTableRecords_propagates transport application query (e : ReqExn) :
  answered transport (getAllTableRecords py_str transport args application query)
           (Raises e) ->
  isinstance e HTTPError = false ->
  isinstance e ConnectionError = false ->
  isinstance e RequestException = false ->
  outcome (getAllTableRecords py_str transport args application query)
  = Raised (Propagated e) /\
  logged_errors (trace (getAllTableRecords py_str transport args application query)) = [] /\
  printed (trace (getAllTableRecords py_str transport args application query)) = [].
Proof.
  intros Hnet Hh Hc Hr.
  apply getAllTableRecords_raises, continues_as_observed in Hnet
    as (-> & -> & -> & _).
  by rewrite except_uncaught.
Qed.

(** X5.  On every path of [getAllTableRecords] and of [createRecord] the
    errors are logged and printed in pairs, and whenever the call leaves
    through [exit()] one error at least has been logged and printed. *)
Theorem fetchers_fail_loud transport application query :
  loud (getAllTableRecords py_str transport args application query) /\
  loud (createRecord py_str transport heap args application query).
Proof.
  split.
  - pose proof (getAllTableRecords_answered_by transport application query)
      as Hnet.
    destruct (transport _) as [e|response];
      [|destruct (raise_for_status response) as [eh|] eqn:Hstatus].
    + eapply loud_continues; [by apply getAllTableRecords_raises|apply except_loud].
    + eapply loud_continues; [by eapply getAllTableRecords_refused|apply except_loud].
    + eapply loud_continues; [by eapply getAllTableRecords_passed|apply else_loud].
  - pose proof (createRecord_answered_by transport application query)
      as Hnet.
    destruct (transport _) as [e|response];
      [|destruct (raise_for_status response) as [eh|] eqn:Hstatus].
    + eapply loud_continues; [by apply createRecord_raises|apply createRecord_except_loud].
    + eapply loud_continues; [by eapply createRecord_refused|apply createRecord_except_loud].
    + eapply loud_continues; [by eapply createRecord_passed|].
      rewrite createRecord_else_eq. apply else_loud.
Qed.

(** X6.  The name of the Content-Type header is matched whatever its case:
    when the header was set under any spelling of [content-type] with
    the value [text/html], an undecodable body gets the decode-failure
    message and the hint, and the call leaves through [exit()]. *)
Theorem hint_whatever_the_case_of_the_name transport application query
    (response : Response.t) (d : CaseInsensitiveDict.t) (name : string) :
  answered transport (getAllTableRecords py_str transport args application query)
           (Responds response) ->
  ~ (400 <= Response.status_code response < 600) ->
  Response.json response = None ->
  CaseInsensitiveDict.lower name = "content-type" ->
  Response.headers response = CaseInsensitiveDict.setitem d name "text/html" ->
  printed (trace (getAllTableRecords py_str transport args application query))
  = [decode_failure_message; instance_active_hint] /\
  outcome (getAllTableRecords py_str transport args application query) = Exited.
Proof.
  intros Hnet Hstatus%raise_for_status_None Hjson Hname Hheaders.
  apply getAllTableRecords_passed, continues_as_observed in Hnet
    as (-> & -> & _); [|done].
  rewrite (else_undecodable _ _ "text/html"); [done|done|].
  unfold header_value, CaseInsensitiveDict.setitem in *.
  rewrite Hheaders, Hname.
  change (CaseInsensitiveDict.lower "Content-Type") with "content-type".
  by rewrite lookup_insert_eq.
Qed.

(** X7.  [getBusinessRules] queries the table [sys_script], whatever the
    application, with the application in the filter
    [sysparm_query=collection=..], while the line it logs first names
    [args.application]; it ends as the fetch it makes. *)
Theorem getBusinessRules_request transport application :
  sent (trace (getBusinessRules py_str transport args application))
  = [read_request args (Some "sys_script")
       ("sysparm_query=collection=" +:+ fmt_s application)] /\
  head (logged_infos (trace (getBusinessRules py_str transport args application)))
  = Some ("Retrieving all " +:+ fmt_s (Args.application args) +:+ " records...") /\
  outcome (getBusinessRules py_str transport args application)
  = outcome (getAllTableRecords py_str transport args (Some "sys_script")
               ("sysparm_query=collection=" +:+ fmt_s application)).
Proof.
  assert (getBusinessRules py_str transport args application
          = getAllTableRecords py_str transport args (Some "sys_script")
              ("sysparm_query=collection=" +:+ fmt_s application)) as ->.
  { unfold getBusinessRules.
    destruct (getAllTableRecords _ _ _ _ _) as [t [data| |e]]; simpl; try done.
    by rewrite app_nil_r. }
  split; [apply getAllTableRecords_sent|]. split; [|done].
  by unfold getAllTableRecords.
Qed.

(** X8.  [createRecord] returns a value in one case only: the POST was
    answered by a response whose status is not in 400..599 and whose body
    decodes, and the value is the decoded body. *)
Theorem createRecord_returns_iff transport application query
    (result : TransportResult) (data : PyVal) :
  answered transport (createRecord py_str transport heap args application query)
           result ->
  outcome (createRecord py_str transport heap args application query) = Returned data
  <-> exists response,
        result = Responds response /\
        ~ (400 <= Response.status_code response < 600) /\
        Response.json response = Some data.
Proof.
  intros Hnet.
  destruct result as [e|response];
    [|destruct (raise_for_status response) as [eh|] eqn:Hstatus].
  - apply createRecord_raises, continues_as_observed in Hnet as (-> & _).
    split; [by intros ?%createRecord_except_never_returns | by intros (? & ? & _)].
  - eapply createRecord_refused, continues_as_observed in Hnet
      as (-> & _); [|done].
    split; [by intros ?%createRecord_except_never_returns|].
    intros (r & [= <-] & Hpass%raise_for_status_None & _). congruence.
  - eapply createRecord_passed, continues_as_observed in Hnet
      as (-> & _); [|done].
    rewrite createRecord_else_eq, else_returns_iff. split.
    + intros Hjson. exists response. by rewrite <- raise_for_status_None.
    + by intros (r & [= <-] & _ & Hjson).
Qed.

(** X9.  On a connection error [createRecord] prints its own wording of
    the connectivity message, in which the indentation of the source
    line follows the first sentence; it is not the line that
    [getAllTableRecords] prints for the same error. *)
Theorem createRecord_connection_message transport transport_get application query
    (e : ReqExn) :
  answered transport (createRecord py_str transport heap args application query)
           (Raises e) ->
  answered transport_get
           (getAllTableRecords py_str transport_get args application query)
           (Raises e) ->
  isinstance e HTTPError = false ->
  isinstance e ConnectionError = true ->
  printed (trace (createRecord py_str transport heap args application query))
  = [create_connection_message +:+ exn_str e] /\
  outcome (createRecord py_str transport heap args application query) = Exited /\
  printed (trace (createRecord py_str transport heap args application query))
  <> printed (trace (getAllTableRecords py_str transport_get args application query)).
Proof.
  intros Hpost Hget Hh Hc.
  apply createRecord_raises, continues_as_observed in Hpost as (-> & -> & _).
  apply getAllTableRecords_raises, continues_as_observed in Hget as (_ & -> & _).
  rewrite createRecord_except_connection, except_connection by done.
  repeat split. simpl. intros H. discriminate H.
Qed.

End FetcherMore.

(** ** More on the business-rule filter *)

Lemma identifyCustomBusinessRules_step_inv (acc acc' : list PyVal) (rule : PyVal) :
  identifyCustomBusinessRules_step acc rule = Returned acc' ->
  has_audit_keys rule.
Proof.
  unfold identifyCustomBusinessRules_step, py_getitem.
  destruct rule as [| | | | |fields]; try done.
  destruct (dict_get "sys_created_by" fields) as [created|] eqn:Hc; [|done].
  destruct (dict_get "sys_updated_by" fields) as [updated|] eqn:Hu; [|done].
  intros _. by exists fields, created, updated.
Qed.

Lemma identifyCustomBusinessRules_loop_inv (rules acc l : list PyVal) :
  identifyCustomBusinessRules_loop acc rules = Returned l ->
  Forall has_audit_keys rules.
Proof.
  revert acc. induction rules as [|rule rest IH]; intros acc; simpl; [done|].
  destruct (identifyCustomBusinessRules_step acc rule) as [acc'| |e] eqn:Hstep;
    simpl; try done.
  intros Hrest. constructor.
  - by eapply identifyCustomBusinessRules_step_inv.
  - by eapply IH.
Qed.

Lemma identifyCustomBusinessRules_loop_fails (good rest acc : list PyVal)
    (bad : PyVal) (e : PyError) :
  Forall has_audit_keys good ->
  (forall acc', identifyCustomBusinessRules_step acc' bad = Raised e) ->
  identifyCustomBusinessRules_loop acc (good ++ bad :: rest) = Raised e.
Proof.
  intros Hgood Hbad. revert acc.
  induction Hgood as [|rule good Hrule _ IH]; intros acc; simpl.
  - by rewrite Hbad.
  - rewrite identifyCustomBusinessRules_step_spec by done. simpl. apply IH.
Qed.

Lemma filter_creator_differs_keeps (rules : list PyVal) :
  Forall has_audit_keys rules ->
  Forall has_audit_keys (List.filter creator_differs rules) /\
  List.filter creator_differs (List.filter creator_differs rules)
  = List.filter creator_differs rules.
Proof.
  induction 1 as [|rule rules Hrule _ [IH1 IH2]]; simpl; [done|].
  destruct (creator_differs rule) eqn:Hd; simpl; [|done].
  rewrite Hd. split; [by constructor | by f_equal].
Qed.

(** X10.  [identifyCustomBusinessRules] returns a list in one case only:
    the payload has a ["result"] that can be iterated, every item of it is
    a record mapping with both audit keys, and the list is made of the
    items whose creator and last editor differ. *)
Theorem identifyCustomBusinessRules_returns_only (busRules : PyVal) (l : list PyVal) :
  identifyCustomBusinessRules busRules = Returned l ->
  exists rules,
    obind (py_getitem busRules "result") py_iter = Returned rules /\
    Forall has_audit_keys rules /\
    l = List.filter creator_differs rules.
Proof.
  unfold identifyCustomBusinessRules.
  destruct (py_getitem busRules "result") as [result| |e]; simpl; try done.
  destruct (py_iter result) as [rules| |e]; simpl; try done.
  intros Hloop. exists rules. split; [done|].
  pose proof (identifyCustomBusinessRules_loop_inv _ _ _ Hloop) as Hall.
  split; [done|].
  rewrite identifyCustomBusinessRules_loop_spec in Hloop by done.
  simpl in Hloop. congruence.
Qed.

(** X11.  One record without an audit key makes the whole call fail,
    whatever was collected before it: with [KeyError] on
    [sys_created_by] when that key is missing, on [sys_updated_by] when
    only this one is. *)
Theorem identifyCustomBusinessRules_missing_key
    (items fields : list (string * PyVal)) (good rest : list PyVal) :
  dict_get "result" items = Some (PList (good ++ PDict fields :: rest)) ->
  Forall has_audit_keys good ->
  (dict_get "sys_created_by" fields = None ->
   identifyCustomBusinessRules (PDict items) = Raised (KeyError "sys_created_by")) /\
  (is_Some (dict_get "sys_created_by" fields) ->
   dict_get "sys_updated_by" fields = None ->
   identifyCustomBusinessRules (PDict items) = Raised (KeyError "sys_updated_by")).
Proof.
  intros Hresult Hgood.
  unfold identifyCustomBusinessRules. simpl. rewrite Hresult. simpl.
  split.
  - intros Hc. apply identifyCustomBusinessRules_loop_fails; [done|].
    intros acc'. unfold identifyCustomBusinessRules_step. simpl. by rewrite Hc.
  - intros [created Hc] Hu. apply identifyCustomBusinessRules_loop_fails; [done|].
    intros acc'. unfold identifyCustomBusinessRules_step. simpl. by rewrite Hc, Hu.
Qed.

(** X12.  Filtering twice changes nothing: a list that
    [identifyCustomBusinessRules] has returned, handed back under
    ["result"], is returned as it is. *)
Theorem identifyCustomBusinessRules_idempotent (busRules : PyVal) (l : list PyVal) :
  identifyCustomBusinessRules busRules = Returned l ->
  identifyCustomBusinessRules (PDict [("result", PList l)]) = Returned l.
Proof.
  unfold identifyCustomBusinessRules at 1.
  destruct (py_getitem busRules "result") as [result| |e]; simpl; try done.
  destruct (py_iter result) as [rules| |e]; simpl; try done.
  intros Hloop.
  pose proof (identifyCustomBusinessRules_loop_inv _ _ _ Hloop) as Hall.
  rewrite identifyCustomBusinessRules_loop_spec in Hloop by done.
  simpl in Hloop. injection Hloop as <-.
  destruct (filter_creator_differs_keeps rules Hall) as [Hkeys Hsame].
  unfold identifyCustomBusinessRules. simpl.
  rewrite identifyCustomBusinessRules_loop_spec by done. simpl. by rewrite Hsame.
Qed.


(** ** The schema, the demos of [main] *)

Lemma bind_returned {A B} (m : M A) (f : A -> M B) (t : list Event) (a : A) :
  m = (t, Returned a) ->
  m ≫= f = (t ++ trace (f a), outcome (f a)).
Proof. by intros ->. Qed.

Lemma bind_stopped {A B} (m : M A) (f : A -> M B) :
  (forall a, outcome m <> Returned a) ->
  trace (m ≫= f) = trace m /\
  (outcome m = Exited -> outcome (m ≫= f) = Exited) /\
  (forall e, outcome m = Raised e -> outcome (m ≫= f) = Raised e).
Proof.
  destruct m as [t [a| |e]]; simpl; intros Hstop; [by destruct (Hstop a)|..];
    repeat split; congruence.
Qed.

Lemma printed_app (t1 t2 : list Event) : printed (t1 ++ t2) = printed t1 ++ printed t2.
Proof. apply omap_app. Qed.

Lemma logged_infos_app (t1 t2 : list Event) :
  logged_infos (t1 ++ t2) = logged_infos t1 ++ logged_infos t2.
Proof. apply omap_app. Qed.

Lemma sent_app (t1 t2 : list Event) : sent (t1 ++ t2) = sent t1 ++ sent t2.
Proof. apply omap_app. Qed.

Lemma printed_Print (lines : list string) : printed (Print <$> lines) = lines.
Proof. induction lines as [|line lines IH]; simpl; [done | by f_equal]. Qed.


Section MainMore.

Variable py_str : PyVal -> string.
Variable args : Args.t.

(** A fetch that succeeds, event by event. *)
Lemma getAllTableRecords_success transport application query
    (response : Response.t) (data : PyVal) :
  answered transport (getAllTableRecords py_str transport args application query)
           (Responds response) ->
  ~ (400 <= Response.status_code response < 600) ->
  Response.json response = Some data ->
  getAllTableRecords py_str transport args application query
  = ([LogInfo ("Retrieving all " +:+ fmt_s (Args.application args) +:+ " records...");
      Sent (read_request args application query);
      JsonDecode;
      LogInfo ("Successfully retrieved all " +:+ fmt_s (Args.application args)
               +:+ " records ")],
     Returned data).
Proof.
  intros Hnet Hstatus%raise_for_status_None Hjson.
  unfold getAllTableRecords, requests_get. simpl.
  rewrite (Hnet _).
  - rewrite Hstatus, (else_decoded _ _ data) by done. reflexivity.
  - unfold getAllTableRecords, requests_get. simpl. apply list_elem_of_here.
Qed.


(** *** PullClassSchema *)

Lemma PullClassSchema_eq transport :
  PullClassSchema py_str transport args
  = (LogInfo ("Retreiving schema for " +:+ fmt_s (Args.application args) +:+ " table...")
       :: Sent (schema_request args)
       :: trace (match transport (schema_request args) with
                 | Raises e => createRecord_except py_str None e
                 | Responds response =>
                     match raise_for_status response with
                     | Some eh => createRecord_except py_str (Some response) eh
                     | None => getAllTableRecords_else args response
                     end
                 end),
     outcome (match transport (schema_request args) with
              | Raises e => createRecord_except py_str None e
              | Responds response =>
                  match raise_for_status response with
                  | Some eh => createRecord_except py_str (Some response) eh
                  | None => getAllTableRecords_else args response
                  end
              end)).
Proof. reflexivity. Qed.

(** X13.  Whatever the network answers, [PullClassSchema] sends one
    request: a GET to the table [sys_dictionary] of the instance, with
    the filter [sysparm_query=name=<application>^ORname=task]. *)
Theorem PullClassSchema_sends_one_request transport :
  sent (trace (PullClassSchema py_str transport args)) = [schema_request args].
Proof.
  rewrite PullClassSchema_eq. simpl. f_equal.
  destruct (transport _) as [e|response].
  - apply createRecord_except_sends_nothing.
  - destruct (raise_for_status response).
    + apply createRecord_except_sends_nothing.
    + apply else_sends_nothing.
Qed.

(** X14.  On the same answer of the network [PullClassSchema] ends as
    [getAllTableRecords] does, logs the same errors and decodes as
    often. *)
Theorem PullClassSchema_like_getAllTableRecords transport transport_get
    application query (result : TransportResult) :
  answered transport (PullClassSchema py_str transport args) result ->
  answered transport_get
           (getAllTableRecords py_str transport_get args application query) result ->
  outcome (PullClassSchema py_str transport args)
  = outcome (getAllTableRecords py_str transport_get args application query) /\
  logged_errors (trace (PullClassSchema py_str transport args))
  = logged_errors (trace (getAllTableRecords py_str transport_get args application query)) /\
  json_decodes (trace (PullClassSchema py_str transport args))
  = json_decodes (trace (getAllTableRecords py_str transport_get args application query)).
Proof.
  intros Hschema Hget.
  assert (transport (schema_request args) = result) as Hanswer.
  { apply Hschema. rewrite PullClassSchema_eq. simpl. apply list_elem_of_here. }
  destruct result as [e|response];
    [|destruct (raise_for_status response) as [eh|] eqn:Hstatus].
  - apply getAllTableRecords_raises, continues_as_observed in Hget
      as (-> & _ & -> & -> & _).
    rewrite PullClassSchema_eq, Hanswer. apply createRecord_except_same.
  - eapply getAllTableRecords_refused, continues_as_observed in Hget
      as (-> & _ & -> & -> & _); [|done].
    rewrite PullClassSchema_eq, Hanswer, Hstatus. apply createRecord_except_same.
  - eapply getAllTableRecords_passed, continues_as_observed in Hget
      as (-> & _ & -> & -> & _); [|done].
    by rewrite PullClassSchema_eq, Hanswer, Hstatus.
Qed.

(** *** Demo 1 *)

Lemma main_demo1_loop_spec (records : list PyVal) (inc : Z) :
  Forall has_number_and_description records ->
  main_demo1_loop py_str inc records
  = (Print <$> ranked (demo1_line py_str) inc records, Returned tt).
Proof.
  intros Hall. revert inc.
  induction Hall as [|record rest (fields & number & description & -> & Hn & Hd) _ IH];
    intros inc; [done|].
  cbn [main_demo1_loop ranked]. unfold demo1_line at 1, py_getitem.
  rewrite Hn, Hd. simpl. by rewrite IH.
Qed.

Lemma main_demo1_loop_fails (good rest : list PyVal) (bad : PyVal) (e : PyError)
    (inc : Z) :
  Forall has_number_and_description good ->
  (obind (py_getitem bad "number") (fun _ => py_getitem bad "description")) = Raised e ->
  main_demo1_loop py_str inc (good ++ bad :: rest)
  = (Print <$> ranked (demo1_line py_str) inc good, Raised e).
Proof.
  intros Hgood Hbad. revert inc.
  induction Hgood as [|record good (fields & number & description & -> & Hn & Hd) _ IH];
    intros inc.
  - cbn [app main_demo1_loop ranked fmap list_fmap].
    destruct (py_getitem bad "number") as [number| |e1]; simpl in *; try done;
      [|congruence].
    destruct (py_getitem bad "description") as [description| |e2]; simpl in *;
      try done. congruence.
  - cbn [app main_demo1_loop ranked]. unfold demo1_line at 1, py_getitem.
    rewrite Hn, Hd. simpl. by rewrite IH.
Qed.

(** X15.  Demo 1 of [main]: when the fetch of the application table
    succeeds with a list of records that all have a [number] and a
    [description], one line is printed per record, in the order of the
    payload and ranked from 1, and nothing else is printed. *)
Theorem main_demo1_prints_ranked transport (response : Response.t)
    (items : list (string * PyVal)) (records : list PyVal) :
  answered transport
           (getAllTableRecords py_str transport args (Args.application args) "")
           (Responds response) ->
  ~ (400 <= Response.status_code response < 600) ->
  Response.json response = Some (PDict items) ->
  dict_get "result" items = Some (PList records) ->
  Forall has_number_and_description records ->
  printed (trace (main_demo1 py_str transport args))
  = ranked (demo1_line py_str) 1 records /\
  outcome (main_demo1 py_str transport args) = Returned tt.
Proof.
  intros Hnet Hstatus Hjson Hresult Hall.
  unfold main_demo1.
  rewrite (bind_returned _ _ _ _
             (getAllTableRecords_success _ _ _ _ _ Hnet Hstatus Hjson)).
  unfold py_getitem. rewrite Hresult. simpl.
  rewrite main_demo1_loop_spec by done. simpl.
  split; [apply printed_Print | done].
Qed.

(** X16.  Demo 1 of [main]: a record without [number] or without
    [description] stops the demo with the exception of the item access,
    once the lines of the records before it have been printed. *)
Theorem main_demo1_missing_key transport (response : Response.t)
    (items : list (string * PyVal)) (good rest : list PyVal) (bad : PyVal)
    (e : PyError) :
  answered transport
           (getAllTableRecords py_str transport args (Args.application args) "")
           (Responds response) ->
  ~ (400 <= Response.status_code response < 600) ->
  Response.json response = Some (PDict items) ->
  dict_get "result" items = Some (PList (good ++ bad :: rest)) ->
  Forall has_number_and_description good ->
  obind (py_getitem bad "number") (fun _ => py_getitem bad "description") = Raised e ->
  printed (trace (main_demo1 py_str transport args))
  = ranked (demo1_line py_str) 1 good /\
  outcome (main_demo1 py_str transport args) = Raised e.
Proof.
  intros Hnet Hstatus Hjson Hresult Hgood Hbad.
  unfold main_demo1.
  rewrite (bind_returned _ _ _ _
             (getAllTableRecords_success _ _ _ _ _ Hnet Hstatus Hjson)).
  unfold py_getitem. rewrite Hresult. simpl.
  rewrite (main_demo1_loop_fails good rest bad e) by done. simpl.
  split; [apply printed_Print | done].
Qed.

(** *** Demo 2 *)



(** X18.  [main] stops at the first failure: when the application table
    cannot be reached, the connectivity message is printed, [exit()] is
    called, and the request for the business rules is never sent. *)
Theorem main_stops_at_first_failure transport (e : ReqExn) :
  answered transport
           (getAllTableRecords py_str transport args (Args.application args) "")
           (Raises e) ->
  isinstance e HTTPError = false ->
  isinstance e ConnectionError = true ->
  sent (trace (main_demos py_str transport args))
  = [read_request args (Args.application args) ""] /\
  printed (trace (main_demos py_str transport args))
  = [connection_message +:+ exn_str e] /\
  outcome (main_demos py_str transport args) = Exited.
Proof.
  intros Hnet Hh Hc.
  assert (getAllTableRecords py_str transport args (Args.application args) ""
          = ([LogInfo ("Retrieving all " +:+ fmt_s (Args.application args)
                       +:+ " records...");
              Sent (read_request args (Args.application args) "");
              LogError (exn_str e);
              Print (connection_message +:+ exn_str e)], Exited)) as Hget.
  { unfold getAllTableRecords, requests_get. simpl.
    rewrite (Hnet _).
    - by rewrite except_connection.
    - unfold getAllTableRecords, requests_get. simpl. apply list_elem_of_here. }
  unfold main_demos, main_demo1. rewrite Hget. done.
Qed.

End MainMore.

(** ** The attributes that [classFactory] collects *)

Lemma py_eq_PStr (k : PyVal) (s : string) : py_eq k (PStr s) = true <-> k = PStr s.
Proof.
  destruct k as [| | |s'| |]; simpl; try (split; [done|congruence]).
  rewrite String.eqb_eq. split; congruence.
Qed.

Lemma attrs_get_setitem_eq (d : list (PyVal * PyVal)) (element : string) (v : PyVal) :
  attrs_get (attrs_setitem d (PStr element) v) (PStr element) = Some v.
Proof.
  unfold attrs_get.
  induction d as [|[k' v'] d IH]; simpl.
  - by rewrite String.eqb_refl.
  - destruct (py_eq k' (PStr element)) eqn:Hk; simpl; by rewrite Hk.
Qed.

Lemma attrs_get_setitem_ne (d : list (PyVal * PyVal)) (element other : string)
    (v : PyVal) :
  element <> other ->
  attrs_get (attrs_setitem d (PStr element) v) (PStr other) = attrs_get d (PStr other).
Proof.
  intros Hne. unfold attrs_get.
  induction d as [|[k' v'] d IH]; simpl.
  - by rewrite (proj2 (String.eqb_neq element other)).
  - destruct (py_eq k' (PStr element)) eqn:Hk; simpl.
    + apply py_eq_PStr in Hk as ->. simpl.
      by rewrite (proj2 (String.eqb_neq element other)).
    + destruct (py_eq k' (PStr other)); [done | apply IH].
Qed.

Section ClassFactory.

Variable py_str : PyVal -> string.
Variable args : Args.t.

Lemma classFactory_step_spec (acc : list (PyVal * PyVal)) (attr : PyVal)
    (element : string) (internal_type value : PyVal) :
  schema_row attr element internal_type value ->
  classFactory_step py_str acc attr
  = ([LogInfo (py_str (PStr element) +:+ ": " +:+ py_str value)],
     Returned (attrs_setitem acc (PStr element) internal_type)).
Proof.
  intros (fields & type_fields & -> & He & Hi & -> & Hv).
  unfold classFactory_step, py_getitem. rewrite He, Hi. simpl. by rewrite Hv.
Qed.

(** Rows that [classFactory] can take in leave what is known of another
    element as it is. *)
Lemma classFactory_loop_keeps (rows : list PyVal) (acc : list (PyVal * PyVal))
    (element : string) (known : option PyVal) :
  Forall schema_row_ok rows ->
  Forall (fun attr => forall internal_type value,
            ~ schema_row attr element internal_type value) rows ->
  attrs_get acc (PStr element) = known ->
  exists attrs,
    outcome (classFactory_loop py_str acc rows) = Returned attrs /\
    attrs_get attrs (PStr element) = known.
Proof.
  intros Hok. revert acc.
  induction Hok as [|attr rows (other & internal_type & value & Hrow) _ IH];
    intros acc Hothers Hacc; simpl.
  - by exists acc.
  - apply Forall_cons in Hothers as [Hattr Hothers].
    rewrite (classFactory_step_spec acc attr other internal_type value) by done.
    simpl. apply IH; [done|].
    rewrite attrs_get_setitem_ne; [done|].
    intros ->. by eapply Hattr.
Qed.

Lemma classFactory_loop_returns (rows : list PyVal) (acc : list (PyVal * PyVal)) :
  Forall schema_row_ok rows ->
  exists attrs, classFactory_loop py_str acc rows
                = (trace (classFactory_loop py_str acc rows), Returned attrs).
Proof.
  intros Hok. revert acc.
  induction Hok as [|attr rows (other & internal_type & value & Hrow) _ IH];
    intros acc; simpl.
  - by exists acc.
  - rewrite (classFactory_step_spec acc attr other internal_type value) by done.
    simpl. destruct (IH (attrs_setitem acc (PStr other) internal_type)) as [attrs ->].
    by exists attrs.
Qed.

(** X19.  The attributes that [classFactory] collects: when the schema is
    fetched and its rows are well formed, the attribute of an element is
    the type of the last row that has this element, whatever rows come
    before it. *)
Theorem classFactory_last_row_wins transport (response : Response.t)
    (items : list (string * PyVal)) (before after : list PyVal) (attr : PyVal)
    (element : string) (internal_type value : PyVal) :
  answered transport (PullClassSchema py_str transport args) (Responds response) ->
  ~ (400 <= Response.status_code response < 600) ->
  Response.json response = Some (PDict items) ->
  dict_get "result" items = Some (PList (before ++ attr :: after)) ->
  Forall schema_row_ok before ->
  schema_row attr element internal_type value ->
  Forall schema_row_ok after ->
  Forall (fun later => forall internal_type' value',
            ~ schema_row later element internal_type' value') after ->
  exists attrs,
    outcome (classFactory_attributes py_str transport args) = Returned attrs /\
    attrs_get attrs (PStr element) = Some internal_type.
Proof.
  intros Hnet Hstatus%raise_for_status_None Hjson Hresult Hbefore Hrow Hafter Hlater.
  assert (transport (schema_request args) = Responds response) as Hanswer.
  { apply Hnet. rewrite PullClassSchema_eq. simpl. apply list_elem_of_here. }
  unfold classFactory_attributes.
  rewrite PullClassSchema_eq, Hanswer, Hstatus, (else_decoded _ _ (PDict items)) by done.
  simpl. rewrite Hresult. simpl.
  assert (forall acc, exists attrs,
            outcome (classFactory_loop py_str acc (before ++ attr :: after))
            = Returned attrs /\
            attrs_get attrs (PStr element) = Some internal_type) as Hloop.
  { clear -Hbefore Hrow Hafter Hlater.
    induction Hbefore as [|first before (other & it & v & Hfirst) _ IH];
      intros acc; simpl.
    - rewrite (classFactory_step_spec acc attr element internal_type value) by done.
      simpl. apply classFactory_loop_keeps; [done|done|].
      apply attrs_get_setitem_eq.
    - rewrite (classFactory_step_spec acc first other it v) by done.
      simpl. apply IH. }
  destruct (Hloop []) as (attrs & Hout & Hget). by exists attrs.
Qed.

End ClassFactory.

(** ** The further properties at sample calls *)

Lemma getAllTableRecords_returns_iff_witness :
  outcome (getAllTableRecords Scenario.py_str (fun _ => Responds Scenario.response_300)
             Scenario.args (Some "incident") "")
  = Returned Scenario.incidents.
Proof.
  apply (getAllTableRecords_returns_iff Scenario.py_str Scenario.args
           (fun _ => Responds Scenario.response_300) (Some "incident") ""
           (Responds Scenario.response_300) Scenario.incidents).
  - intros req _. reflexivity.
  - exists Scenario.response_300. split; [reflexivity|]. split; [simpl; lia | reflexivity].
Defined.

Lemma getAllTableRecords_http_error_undecodable_witness :
  outcome (getAllTableRecords Scenario.py_str (fun _ => Responds Sample.response_401_html)
             Scenario.args (Some "incident") "")
  = Raised JSONDecodeError.
Proof.
  apply (getAllTableRecords_http_error_undecodable Scenario.py_str Scenario.args
           (fun _ => Responds Sample.response_401_html) (Some "incident") ""
           Sample.response_401_html).
  - intros req _. reflexivity.
  - simpl. lia.
  - reflexivity.
Defined.

Lemma getAllTableRecords_propagates_witness :
  outcome (getAllTableRecords Scenario.py_str (fun _ => Raises Sample.interrupted)
             Scenario.args (Some "incident") "")
  = Raised (Propagated Sample.interrupted).
Proof.
  apply (getAllTableRecords_propagates Scenario.py_str Scenario.args
           (fun _ => Raises Sample.interrupted) (Some "incident") ""
           Sample.interrupted).
  - intros req _. reflexivity.
  - vm_compute. reflexivity.
  - vm_compute. reflexivity.
  - vm_compute. reflexivity.
Defined.

Lemma hint_whatever_the_case_of_the_name_witness :
  printed (trace (getAllTableRecords Scenario.py_str
                    (fun _ => Responds Sample.response_mixed_case)
                    Scenario.args (Some "incident") ""))
  = [decode_failure_message; instance_active_hint].
Proof.
  apply (hint_whatever_the_case_of_the_name Scenario.py_str Scenario.args
           (fun _ => Responds Sample.response_mixed_case) (Some "incident") ""
           Sample.response_mixed_case ∅ "CONTENT-type").
  - intros req _. reflexivity.
  - simpl. lia.
  - reflexivity.
  - vm_compute. reflexivity.
  - reflexivity.
Defined.

Lemma createRecord_returns_iff_witness :
  outcome (createRecord Scenario.py_str (fun _ => Responds Scenario.response_D) []
             Scenario.args (Some "incident") "")
  = Returned Scenario.created.
Proof.
  apply (createRecord_returns_iff Scenario.py_str [] Scenario.args
           (fun _ => Responds Scenario.response_D) (Some "incident") ""
           (Responds Scenario.response_D) Scenario.created).
  - intros req _. reflexivity.
  - exists Scenario.response_D. split; [reflexivity|]. split; [simpl; lia | reflexivity].
Defined.

Lemma createRecord_connection_message_witness :
  printed (trace (createRecord Scenario.py_str (fun _ => Raises Scenario.unreachable) []
                    Scenario.args (Some "incident") ""))
  = [create_connection_message +:+ "Max retries exceeded"].
Proof.
  apply (createRecord_connection_message Scenario.py_str [] Scenario.args
           (fun _ => Raises Scenario.unreachable) (fun _ => Raises Scenario.unreachable)
           (Some "incident") "" Scenario.unreachable).
  - intros req _. reflexivity.
  - intros req _. reflexivity.
  - vm_compute. reflexivity.
  - vm_compute. reflexivity.
Defined.

Lemma identifyCustomBusinessRules_returns_only_witness :
  exists rules,
    obind (py_getitem Scenario.rules "result") py_iter = Returned rules /\
    Forall has_audit_keys rules /\
    [Scenario.rule2; Scenario.rule3] = List.filter creator_differs rules.
Proof.
  apply (identifyCustomBusinessRules_returns_only Scenario.rules
           [Scenario.rule2; Scenario.rule3]).
  reflexivity.
Defined.

Lemma identifyCustomBusinessRules_missing_key_witness :
  identifyCustomBusinessRules
    (PDict [("result", PList [Scenario.rule2; Sample.no_audit; Scenario.rule3])])
  = Raised (KeyError "sys_created_by").
Proof.
  apply (identifyCustomBusinessRules_missing_key
           [("result", PList [Scenario.rule2; Sample.no_audit; Scenario.rule3])]
           [("sys_name", PStr "r4")] [Scenario.rule2] [Scenario.rule3]).
  - reflexivity.
  - repeat (constructor; [by eexists _, _, _|]). constructor.
  - reflexivity.
Defined.

Lemma identifyCustomBusinessRules_idempotent_witness :
  identifyCustomBusinessRules (PDict [("result", PList [Scenario.rule2; Scenario.rule3])])
  = Returned [Scenario.rule2; Scenario.rule3].
Proof.
  apply (identifyCustomBusinessRules_idempotent Scenario.rules).
  reflexivity.
Defined.

Lemma PullClassSchema_like_getAllTableRecords_witness :
  outcome (PullClassSchema Scenario.py_str (fun _ => Responds Scenario.response_B)
             Scenario.args)
  = outcome (getAllTableRecords Scenario.py_str (fun _ => Responds Scenario.response_B)
               Scenario.args (Some "incident") "").
Proof.
  apply (PullClassSchema_like_getAllTableRecords Scenario.py_str Scenario.args
           (fun _ => Responds Scenario.response_B) (fun _ => Responds Scenario.response_B)
           (Some "incident") "" (Responds Scenario.response_B)).
  - intros req _. reflexivity.
  - intros req _. reflexivity.
Defined.

Lemma main_demo1_prints_ranked_witness :
  printed (trace (main_demo1 Scenario.py_str Sample.network Scenario.args))
  = ["1. INC001 - test"].
Proof.
  apply (main_demo1_prints_ranked Scenario.py_str Scenario.args Sample.network
           Scenario.response_A
           [("result", PList [Sample.incident1])] [Sample.incident1]).
  - intros req Hreq. vm_compute in Hreq.
    apply list_elem_of_singleton in Hreq. subst. reflexivity.
  - simpl. lia.
  - reflexivity.
  - reflexivity.
  - repeat (constructor; [by eexists _, _, _|]). constructor.
Defined.

Lemma main_demo1_missing_key_witness :
  printed (trace (main_demo1 Scenario.py_str (fun _ => Responds Sample.response_incomplete)
                    Scenario.args))
  = ["1. INC001 - test"] /\
  outcome (main_demo1 Scenario.py_str (fun _ => Responds Sample.response_incomplete)
             Scenario.args)
  = Raised (KeyError "description").
Proof.
  apply (main_demo1_missing_key Scenario.py_str Scenario.args
           (fun _ => Responds Sample.response_incomplete) Sample.response_incomplete
           [("result", PList [Sample.incident1; Sample.incomplete; Sample.incident1])]
           [Sample.incident1] [Sample.incident1] Sample.incomplete
           (KeyError "description")).
  - intros req _. reflexivity.
  - simpl. lia.
  - reflexivity.
  - reflexivity.
  - repeat (constructor; [by eexists _, _, _|]). constructor.
  - reflexivity.
Defined.


Lemma main_stops_at_first_failure_witness :
  sent (trace (main_demos Scenario.py_str Sample.network_down Scenario.args))
  = [read_request Scenario.args (Some "incident") ""].
Proof.
  apply (main_stops_at_first_failure Scenario.py_str Scenario.args Sample.network_down
           Scenario.unreachable).
  - intros req Hreq. vm_compute in Hreq.
    apply list_elem_of_singleton in Hreq. subst. reflexivity.
  - vm_compute. reflexivity.
  - vm_compute. reflexivity.
Defined.

Lemma classFactory_last_row_wins_witness :
  exists attrs,
    outcome (classFactory_attributes Scenario.py_str
               (fun _ => Responds Sample.schema_response) Scenario.args)
    = Returned attrs /\
    attrs_get attrs (PStr "number") = Some Sample.integer_type.
Proof.
  apply (classFactory_last_row_wins Scenario.py_str Scenario.args
           (fun _ => Responds Sample.schema_response) Sample.schema_response
           [("result", PList [Sample.row "number" Sample.string_type;
                              Sample.row "priority" Sample.integer_type;
                              Sample.row "number" Sample.integer_type])]
           [Sample.row "number" Sample.string_type;
            Sample.row "priority" Sample.integer_type]
           [] (Sample.row "number" Sample.integer_type)
           "number" Sample.integer_type (PStr "integer")).
  - intros req _. reflexivity.
  - simpl. lia.
  - reflexivity.
  - reflexivity.
  - repeat (constructor; [by eexists _, _, _, _, _|]). constructor.
  - by eexists _, _.
  - constructor.
  - constructor.
Defined.
